(** * C37BlobsFlasher: device detection, mode transition and flash sweep

    A shallow embedding of [src/N200/BlobsFlasher/C37BlobsFlasher.py].

    Text is a [string] whose characters stand for code points below 256;
    the Python [str] methods the script calls ([strip], [splitlines],
    [lower], [endswith], [in]) are written out on that range.  Everything
    the script asks of its machine (processes, files, sleeping, the
    network, the terminal) goes through the [Host] interface, and every
    such request is logged as an [event], so that "which commands were
    issued, in which order" is a statement about a list.  Of the exceptions
    Python can raise, the model follows [FileNotFoundError] from a launch
    and [SystemExit]; a [while True] loop is followed for a given number of
    turns. *)

From Stdlib Require Import String Ascii List ZArith Bool Arith Lia DecimalString.
Import ListNotations.
Open Scope string_scope.

(* ================================================================= *)
(** ** Python text primitives *)

Module PyStr.
Local Open Scope nat_scope.

(** [str.isspace] for one character: TAB..CR, FS..US, space, NEL, NBSP. *)
Definition isspace (c : ascii) : bool :=
  let n := nat_of_ascii c in
  ((9 <=? n) && (n <=? 13)) || ((28 <=? n) && (n <=? 31))
  || (n =? 32) || (n =? 133) || (n =? 160).

(** The line boundaries of [str.splitlines]: LF, VT, FF, CR, FS, GS, RS, NEL
    (CR LF is handled in [splitlines]). *)
Definition is_linebreak (c : ascii) : bool :=
  let n := nat_of_ascii c in
  ((10 <=? n) && (n <=? 13)) || ((28 <=? n) && (n <=? 30)) || (n =? 133).

Definition is_cr (c : ascii) : bool := nat_of_ascii c =? 13.
Definition is_lf (c : ascii) : bool := nat_of_ascii c =? 10.

(** [str.lower] for one character: A-Z and the Latin-1 capitals. *)
Definition lower_char (c : ascii) : ascii :=
  let n := nat_of_ascii c in
  if ((65 <=? n) && (n <=? 90))
     || ((192 <=? n) && (n <=? 222) && negb (n =? 215))
  then ascii_of_nat (n + 32) else c.

Fixpoint lower (s : string) : string :=
  match s with
  | EmptyString => EmptyString
  | String c r => String (lower_char c) (lower r)
  end.

Fixpoint lstrip (s : string) : string :=
  match s with
  | EmptyString => EmptyString
  | String c r => if isspace c then lstrip r else s
  end.

Fixpoint rstrip (s : string) : string :=
  match s with
  | EmptyString => EmptyString
  | String c r =>
      match rstrip r with
      | EmptyString => if isspace c then EmptyString else String c EmptyString
      | r' => String c r'
      end
  end.

Definition strip (s : string) : string := rstrip (lstrip s).

(** [s.splitlines()]: the lines of [s] without their terminators; a final
    terminator opens no further line. *)
Fixpoint splitlines (s : string) : list string :=
  match s with
  | EmptyString => []
  | String c r =>
      if is_linebreak c then
        match r with
        | String d r' =>
            if is_cr c && is_lf d then EmptyString :: splitlines r'
            else EmptyString :: splitlines r
        | EmptyString => [EmptyString]
        end
      else
        match splitlines r with
        | [] => [String c EmptyString]
        | l :: ls => String c l :: ls
        end
  end.

(** [s.startswith(p)] *)
Fixpoint startswith (s p : string) : bool :=
  match p, s with
  | EmptyString, _ => true
  | String _ _, EmptyString => false
  | String a p', String b s' => Ascii.eqb a b && startswith s' p'
  end.

(** [sub in s] *)
Fixpoint contains (sub s : string) : bool :=
  startswith s sub
  || match s with
     | EmptyString => false
     | String _ r => contains sub r
     end.

(** [s.endswith(suf)] *)
Definition endswith (s suf : string) : bool :=
  let n := String.length s in
  let m := String.length suf in
  (m <=? n) && String.eqb (substring (n - m) m s) suf.

(** [s[:-k]] *)
Definition drop_last (k : nat) (s : string) : string :=
  substring 0 (String.length s - k) s.

(** [bool(s)] *)
Definition truthy (s : string) : bool :=
  match s with EmptyString => false | String _ _ => true end.

(** [o or ""] for [o] a string or [None]. *)
Definition or_empty (o : option string) : string :=
  match o with
  | Some (String c r) => String c r
  | _ => EmptyString
  end.

(** [str(n)] for an integer. *)
Definition str_of_Z (z : Z) : string := NilZero.string_of_int (Z.to_int z).

Local Open Scope string_scope.

(** POSIX [os.path.join(a, b)]. *)
Definition path_join (a b : string) : string :=
  if startswith b "/" then b
  else if negb (truthy a) || endswith a "/" then a ++ b
  else a ++ "/" ++ b.

End PyStr.
Import PyStr.

Definition nl : string := String (ascii_of_nat 10) EmptyString.
Definition tab : string := String (ascii_of_nat 9) EmptyString.

(* ================================================================= *)
(** ** The machine the script runs on *)

(** [subprocess.CompletedProcess], as far as the script reads it. *)
Record CompletedProcess : Type := mkCompleted {
  returncode : Z;
  stdout : string;
  stderr : string
}.

(** What the script asks of its surroundings.  [W] is the state of the
    outside world (the attached device, the file system, the clock, the
    network); a request may change it, and the same request may be answered
    differently later.

    A [Host] is a machine on which every launch either completes with output
    that decodes as text, or finds no program ([None], Python's
    [FileNotFoundError]), and on which a request and a write of a file
    succeed.  What is proved of the script over a [Host] is therefore
    conditional on launches that end in one of these two ways; a program that
    is not executable, output that is not text, or a file that cannot be
    opened are outside it.  The other endings of a launch are followed in
    [launch_end], for the functions whose behaviour under them is
    stated. *)
Class Host (W : Type) : Type := mkHost {
  host_subprocess_run : list string -> W -> option CompletedProcess * W;
  host_path_exists : string -> W -> bool;
  host_listdir : string -> W -> list string;
  host_sleep : nat -> W -> W;
  host_input : string -> W -> string * W;
  host_mkdtemp : string -> W -> string * W;
  host_requests_get : string -> W -> (Z * list string) * W;
  host_write_file : string -> list string -> W -> W;
  host_rmtree : string -> W -> W
}.

(** The exceptions the development names.  A launch on a [Host] raises
    [FileNotFoundError] only; [PermissionError] and [UnicodeDecodeError] are
    the other endings of a launch, followed in [launch_end] below. *)
Inductive exn : Type :=
| FileNotFoundError
| SystemExit (code : Z)
| PermissionError
| UnicodeDecodeError.

(** How a call ends: it returns, it raises, or the fuel given to a
    [while True] loop ran out while the loop was still going. *)
Inductive result (A : Type) : Type :=
| Returned (a : A)
| Raised (e : exn)
| StillRunning.
Arguments Returned {A} a.
Arguments Raised {A} e.
Arguments StillRunning {A}.

(** What the script did, in order. *)
Inductive event : Type :=
| Printed (text : string)
| Run (cmd : list string)
| Sleep (seconds : nat)
| Input (prompt : string)
| Mkdtemp (prefix : string)
| HttpGet (url : string)
| WriteFile (path : string)
| Rmtree (path : string).

(* ================================================================= *)
(** ** The script *)

Section Script.

Context {W : Type} {host : Host W}.

(** A computation: from a world to a result, the new world, and the events
    of this computation. *)
Definition M (A : Type) : Type := W -> result A * W * list event.

Definition ret {A} (a : A) : M A := fun w => (Returned a, w, []).

Definition bind {A B} (m : M A) (k : A -> M B) : M B :=
  fun w =>
    match m w with
    | (Returned a, w1, t1) =>
        match k a w1 with
        | (r, w2, t2) => (r, w2, (t1 ++ t2)%list)
        end
    | (Raised e, w1, t1) => (Raised e, w1, t1)
    | (StillRunning, w1, t1) => (StillRunning, w1, t1)
    end.

Notation "x <- m ;; k" := (bind m (fun x => k))
  (at level 61, m at next level, right associativity).
Notation "m ;; k" := (bind m (fun _ => k))
  (at level 61, right associativity).

Definition raise {A} (e : exn) : M A := fun w => (Raised e, w, []).
Definition out_of_fuel {A} : M A := fun w => (StillRunning, w, []).

(** [try: m  except FileNotFoundError: h] *)
Definition except_FileNotFoundError {A} (m h : M A) : M A :=
  fun w =>
    match m w with
    | (Raised FileNotFoundError, w1, t1) =>
        match h w1 with
        | (r, w2, t2) => (r, w2, (t1 ++ t2)%list)
        end
    | other => other
    end.

(** [for x in l: body(x)] *)
Fixpoint for_each {A} (l : list A) (body : A -> M unit) : M unit :=
  match l with
  | [] => ret tt
  | x :: xs => body x ;; for_each xs body
  end.

Definition print (text : string) : M unit :=
  fun w => (Returned tt, w, [Printed text]).

Definition subprocess_run (cmd : list string) : M CompletedProcess :=
  fun w =>
    match host_subprocess_run cmd w with
    | (Some p, w1) => (Returned p, w1, [Run cmd])
    | (None, w1) => (Raised FileNotFoundError, w1, [Run cmd])
    end.

Definition time_sleep (seconds : nat) : M unit :=
  fun w => (Returned tt, host_sleep seconds w, [Sleep seconds]).

Definition input (prompt : string) : M string :=
  fun w => let (s, w1) := host_input prompt w in (Returned s, w1, [Input prompt]).

Definition os_path_exists (path : string) : M bool :=
  fun w => (Returned (host_path_exists path w), w, []).

Definition os_listdir (directory : string) : M (list string) :=
  fun w => (Returned (host_listdir directory w), w, []).

Definition tempfile_mkdtemp (prefix : string) : M string :=
  fun w => let (d, w1) := host_mkdtemp prefix w in (Returned d, w1, [Mkdtemp prefix]).

Definition requests_get (url : string) : M (Z * list string) :=
  fun w => let (r, w1) := host_requests_get url w in (Returned r, w1, [HttpGet url]).

(** [with open(path, "wb") as f: ... f.write(chunk)], where the file can be
    opened. *)
Definition write_file (path : string) (chunks : list string) : M unit :=
  fun w => (Returned tt, host_write_file path chunks w, [WriteFile path]).

Definition shutil_rmtree (path : string) : M unit :=
  fun w => (Returned tt, host_rmtree path w, [Rmtree path]).

Definition sys_exit {A} (code : Z) : M A := raise (SystemExit code).

(* ----------------------------------------------------------------- *)
(** *** Device detection *)

Definition run (cmd : list string) : M (option string * option string) :=
  except_FileNotFoundError
    (result <- subprocess_run cmd ;;
     ret (Some (strip (stdout result)), Some (strip (stderr result))))
    (ret (None, None)).

(** The scan [adb_device_present] makes of what [run] gave it. *)
Definition adb_device_present_on (out : option string) : bool :=
  match out with
  | None => false
  | Some out =>
      existsb (fun line => endswith (strip line) "device")
              (tl (splitlines out))
  end.

Definition adb_device_present : M bool :=
  r <- run ["adb"; "devices"] ;;
  ret (adb_device_present_on (fst r)).

Definition detect_oneplus_n200_adb_on (out : option string) : bool :=
  match out with
  | None => false
  | Some out =>
      existsb (fun line => contains "ro.product.name" line
                           && contains "OnePlusN200" line)
              (splitlines out)
  end.

Definition detect_oneplus_n200_adb : M bool :=
  r <- run ["adb"; "shell"; "getprop"] ;;
  ret (detect_oneplus_n200_adb_on (fst r)).

Definition fastboot_device_present_on (r : option string * option string) : bool :=
  let combined := or_empty (fst r) ++ or_empty (snd r) in
  truthy (strip combined).

Definition fastboot_device_present : M bool :=
  r <- run ["fastboot"; "devices"] ;;
  ret (fastboot_device_present_on r).

Definition detect_fastboot_mode_on (r : option string * option string) : string :=
  let combined := or_empty (fst r) ++ or_empty (snd r) in
  let low := lower combined in
  if contains "is-userspace: yes" low then "fastbootd"
  else if contains "is-userspace: no" low then "bootloader"
  else "unknown".

Definition detect_fastboot_mode : M string :=
  r <- run ["fastboot"; "getvar"; "is-userspace"] ;;
  ret (detect_fastboot_mode_on r).

(** The [while True] loop of [ensure_fastbootd]; [fuel] bounds the number
    of iterations the model follows. *)
Fixpoint ensure_fastbootd_loop (fuel : nat) : M bool :=
  match fuel with
  | O => out_of_fuel
  | S fuel' =>
      mode <- detect_fastboot_mode ;;
      present <- fastboot_device_present ;;
      if negb present then
        print "No fastboot device detected." ;;
        ret false
      else if String.eqb mode "fastbootd" then
        print "✔ Device is in fastbootd (userspace)." ;;
        ret true
      else if String.eqb mode "bootloader" then
        print "↻ Device is in bootloader fastboot. Rebooting to fastbootd..." ;;
        run ["fastboot"; "reboot"; "fastboot"] ;;
        print "Waiting 15 seconds for fastbootd..." ;;
        time_sleep 15 ;;
        ensure_fastbootd_loop fuel'
      else
        print "⚠ Unknown fastboot mode. Retrying in 3s..." ;;
        time_sleep 3 ;;
        ensure_fastbootd_loop fuel'
  end.

Definition ensure_fastbootd (fuel : nat) : M bool :=
  print (nl ++ "=== Ensuring fastbootd ===") ;;
  ensure_fastbootd_loop fuel.

Definition detect_oneplus_n200_fastboot_on (r : option string * option string) : bool :=
  let combined := or_empty (fst r) ++ or_empty (snd r) in
  existsb (fun line => contains "system-fingerprint" (lower line)
                       && contains "oneplusn200" (lower line))
          (splitlines combined).

Definition detect_oneplus_n200_fastboot : M bool :=
  r <- run ["fastboot"; "getvar"; "all"] ;;
  ret (detect_oneplus_n200_fastboot_on r).

(* ----------------------------------------------------------------- *)
(** *** Download and extraction *)

Definition FILES : list string :=
  [ "abl.img.zst"; "bluetooth.img.zst"; "core_nhlos.img.zst"; "devcfg.img.zst";
    "dsp.img.zst"; "featenabler.img.zst"; "hyp.img.zst"; "imagefv.img.zst";
    "keymaster.img.zst"; "logo.img.zst"; "modem.img.zst"; "oplusstanvbk.img.zst";
    "qupfw.img.zst"; "rpm.img.zst"; "tz.img.zst"; "uefisecapp.img.zst";
    "xbl_config.img.zst"; "xbl.img.zst" ].

Definition BASE_URL : string :=
  "https://github.com/elginsk8r/oplus_archive/releases/download/DE2117_11_C.37/".

Definition download_files (file_list : list string) : M string :=
  tmp_dir <- tempfile_mkdtemp "oplus_download_" ;;
  print ("[+] Temporary download directory: " ++ tmp_dir) ;;
  for_each file_list (fun filename =>
    let url := BASE_URL ++ filename in
    let dest_path := path_join tmp_dir filename in
    there <- os_path_exists dest_path ;;
    if there then ret tt
    else
      print ("[*] Downloading " ++ filename ++ "...") ;;
      resp <- requests_get url ;;
      if negb (Z.eqb (fst resp) 200) then
        print ("[-] Failed to download " ++ filename ++ ": HTTP " ++ str_of_Z (fst resp))
      else
        write_file dest_path (snd resp) ;;
        print ("[+] Downloaded " ++ filename)) ;;
  ret tmp_dir.

Definition extract_zst_files (directory : string) : M unit :=
  names <- os_listdir directory ;;
  for_each names (fun filename =>
    if endswith filename ".zst" then
      let zst_path := path_join directory filename in
      let out_path := path_join directory (drop_last 4 filename) in
      print ("[*] Extracting " ++ filename ++ " -> " ++ out_path) ;;
      let cmd := ["zstd"; "-d"; "-f"; zst_path; "-o"; out_path] in
      result <- subprocess_run cmd ;;
      if negb (Z.eqb (returncode result) 0) then
        print ("[-] Failed to extract " ++ filename ++ ": " ++ stderr result)
      else
        print ("[+] Extracted " ++ filename)
    else ret tt).

(* ----------------------------------------------------------------- *)
(** *** Flashing *)

Definition FLASH_COMMANDS : list (string * string) :=
  [ ("abl", "abl.img");
    ("bluetooth", "bluetooth.img");
    ("core_nhlos", "core_nhlos.img");
    ("devcfg", "devcfg.img");
    ("dsp", "dsp.img");
    ("featenabler", "featenabler.img");
    ("hyp", "hyp.img");
    ("imagefv", "imagefv.img");
    ("keymaster", "keymaster.img");
    ("logo", "logo.img");
    ("modem", "modem.img");
    ("oplusstanvbk", "oplusstanvbk.img");
    ("qupfw", "qupfw.img");
    ("rpm", "rpm.img");
    ("tz", "tz.img");
    ("uefisecapp", "uefisecapp.img");
    ("xbl_config", "xbl_config.img");
    ("xbl", "xbl.img") ].

(** The command line of one flash. *)
Definition flash_cmd (partition path : string) : list string :=
  ["fastboot"; "flash"; "--slot=all"; partition; path].

(** The body of the [for] loop of [flash_images]. *)
Definition flash_one (directory : string) (spec : string * string) : M unit :=
  let (partition, img_file) := spec in
  let path := path_join directory img_file in
  there <- os_path_exists path ;;
  if negb there then
    print ("[-] File missing: " ++ img_file ++ ". Skipping.")
  else
    let cmd := flash_cmd partition path in
    print ("[*] Flashing " ++ partition ++ " -> " ++ img_file) ;;
    result <- subprocess_run cmd ;;
    if negb (Z.eqb (returncode result) 0) then
      print ("[-] Failed to flash " ++ partition ++ ": " ++ stderr result)
    else
      print ("[+] Successfully flashed " ++ partition).

(** The sweep over a list of partition specs. *)
Definition flash_sweep (directory : string) (specs : list (string * string)) : M unit :=
  for_each specs (flash_one directory).

Definition flash_images (directory : string) : M unit :=
  print (nl ++ "=== Flashing images ===") ;;
  ok <- detect_oneplus_n200_fastboot ;;
  if negb ok then
    print "[-] Device is no longer detected as OnePlus N200! Aborting."
  else
    flash_sweep directory FLASH_COMMANDS.

(* ----------------------------------------------------------------- *)
(** *** Main flow *)

Definition disclaimer : string := "
================================================================================
⚠ WARNING — READ CAREFULLY ⚠

I am providing this resource on the condition that you, the end user, know what 
you are doing and know how to recover if/when something were to go wrong. I am 
not responsible for your actions, which include but are not limited to choosing 
to download and/or use this script. 

You, by being the one using the script, accept that I, the developer, will take 
no responsibility in the event the device or ROM bricks, and I am not required 
to assist in debricking or to provide the debricking service for free. I am 
additionally not required to provide updates to the script, provided that it 
functions as intended. However, I will say that this script does work, as I 
have tested it myself.

By proceeding, you accept full responsibility for any outcome.
================================================================================

NOTICE: During testing, the device exhibited behavior where it automatically 
wiped the /data/app folder and all application data, while returning the device 
to the Out-Of-Box Experience (OOBE). Userdata and root modules were preserved. 
This may be related to an internal device-protection mechanism, though this 
cannot be guaranteed. 

Regardless, back up all data beforehand to prevent any data loss. If you fail 
to do so, I will not be responsible for any lost work, data, or time.
".

(** From "Download and extract blobs" to the end of [main]. *)
Definition main_download_and_flash : M unit :=
  print (nl ++ "=== Downloading Needed Update Files ===" ++ nl) ;;
  tmp_dir <- download_files FILES ;;
  extract_zst_files tmp_dir ;;
  print (nl ++ "=== Flashing Update Files ===" ++ nl) ;;
  flash_images tmp_dir ;;
  print ("[*] Cleaning up temporary files: " ++ tmp_dir) ;;
  shutil_rmtree tmp_dir ;;
  print "[+] Cleanup complete." ;;
  print "Rebooting Device" ;;
  run ["fastboot"; "reboot"] ;;
  print (nl ++ "[+] All done.").

(** From "Fastboot / Fastbootd Mode" to the end of [main]. *)
Definition main_fastboot_mode (fuel : nat) : M unit :=
  fb <- fastboot_device_present ;;
  if fb then
    print "[*] Device detected in fastboot mode." ;;
    ensure_fastbootd fuel ;;
    ok <- detect_oneplus_n200_fastboot ;;
    if negb ok then
      print "✘ Fastbootd device detected, but NOT a OnePlus N200. Aborting."
    else
      print "✔ Device confirmed as OnePlus N200 in fastbootd." ;;
      main_download_and_flash
  else
    main_download_and_flash.

(** From "ADB Mode" to the end of [main]. *)
Definition main_adb_mode (fuel : nat) : M unit :=
  adb <- adb_device_present ;;
  if adb then
    print "[*] Device detected in ADB mode." ;;
    is_n200 <- detect_oneplus_n200_adb ;;
    if is_n200 then
      print "✔ Device is a OnePlus N200 (ADB mode). Rebooting to fastbootd..." ;;
      run ["adb"; "reboot"; "fastboot"] ;;
      time_sleep 15 ;;
      ensure_fastbootd fuel ;;
      main_fastboot_mode fuel
    else
      print "✘ ADB device detected, but it is NOT a OnePlus N200."
  else
    main_fastboot_mode fuel.

(** [main]; [fuel] is handed to each call of [ensure_fastbootd]. *)
Definition main (fuel : nat) : M unit :=
  print disclaimer ;;
  answer <- input "Do you want to continue? (yes/[no]): " ;;
  let proceed := lower (strip answer) in
  if negb (String.eqb proceed "yes") then
    print "Aborted by user." ;;
    sys_exit 0
  else
    print (nl ++ "=== OnePlus N200 C.37 Blobs Autoflasher ===" ++ nl) ;;
    print (nl ++ "=== Starting Device Detection Logic ===" ++ nl) ;;
    main_adb_mode fuel.

End Script.

(* ================================================================= *)
(** ** Reading an event log *)

(** [r] with the events [t] put in front of its own. *)
Definition preceded_by {W A} (t : list event) (r : result A * W * list event)
  : result A * W * list event :=
  match r with
  | (a, w, t') => (a, w, (t ++ t')%list)
  end.

Definition outcome {W A} (r : result A * W * list event) : result A := fst (fst r).
Definition world_after {W A} (r : result A * W * list event) : W := snd (fst r).
Definition events {W A} (r : result A * W * list event) : list event := snd r.

Definition list_string_eqb (a b : list string) : bool :=
  (length a =? length b)%nat && forallb (fun p => String.eqb (fst p) (snd p)) (combine a b).

(** A launch of [fastboot flash ...]. *)
Definition is_flash_command (e : event) : bool :=
  match e with
  | Run (c0 :: c1 :: _) => String.eqb c0 "fastboot" && String.eqb c1 "flash"
  | _ => false
  end.

Definition is_download (e : event) : bool :=
  match e with
  | HttpGet _ => true
  | _ => false
  end.

Definition is_final_reboot (e : event) : bool :=
  match e with
  | Run cmd => list_string_eqb cmd ["fastboot"; "reboot"]
  | _ => false
  end.

(** What [run] hands back for a launch that ended as [o]. *)
Definition run_on (o : option CompletedProcess) : option string * option string :=
  match o with
  | Some p => (Some (strip (stdout p)), Some (strip (stderr p)))
  | None => (None, None)
  end.

(** The per-partition results the specification names (section 3). *)
Inductive FlashOutcome : Type :=
| Flashed
| SkippedMissingFile
| Failed (reason : string).

(** The log lines by which [flash_images] records an outcome. *)
Definition outcome_events (directory : string) (spec : string * string)
           (o : FlashOutcome) : list event :=
  let (partition, img_file) := spec in
  let attempt :=
    [ Printed ("[*] Flashing " ++ partition ++ " -> " ++ img_file);
      Run (flash_cmd partition (path_join directory img_file)) ] in
  match o with
  | SkippedMissingFile => [Printed ("[-] File missing: " ++ img_file ++ ". Skipping.")]
  | Failed reason =>
      (attempt ++ [Printed ("[-] Failed to flash " ++ partition ++ ": " ++ reason)])%list
  | Flashed =>
      (attempt ++ [Printed ("[+] Successfully flashed " ++ partition)])%list
  end.

Fixpoint report (directory : string) (specs : list (string * string))
         (os : list FlashOutcome) : list event :=
  match specs, os with
  | spec :: specs', o :: os' =>
      (outcome_events directory spec o ++ report directory specs' os')%list
  | _, _ => []
  end.

(** [t] in [line]: somewhere in [line], as written. *)
Definition has_token (t line : string) : Prop :=
  exists a b, line = a ++ t ++ b.

(** [t] in [line.lower()]: somewhere in [line] stands a text that lowers
    to [t]. *)
Definition has_token_nocase (t line : string) : Prop :=
  exists a u b, line = a ++ u ++ b /\ lower u = t.

Fixpoint blank (s : string) : bool :=
  match s with
  | EmptyString => true
  | String c r => isspace c && blank r
  end.

(* ================================================================= *)
(** ** A launch with all its endings *)

(** How one call of [subprocess.run(cmd, stdout=PIPE, stderr=PIPE, text=True)]
    can end: the program ran and its output decoded; the program was not
    found; it was found and is not executable; its output is not text in the
    encoding of the locale. *)
Inductive launch_end : Type :=
| Exited (p : CompletedProcess)
| ProgramNotFound
| ProgramNotExecutable
| OutputNotText.

(** What [subprocess.run] returns or raises at such an ending. *)
Definition subprocess_run_at (l : launch_end) : result CompletedProcess :=
  match l with
  | Exited p => Returned p
  | ProgramNotFound => Raised FileNotFoundError
  | ProgramNotExecutable => Raised PermissionError
  | OutputNotText => Raised UnicodeDecodeError
  end.

(** [run] at that ending: [except FileNotFoundError] and nothing else. *)
Definition run_at (l : launch_end) : result (option string * option string) :=
  match subprocess_run_at l with
  | Returned result => Returned (Some (strip (stdout result)), Some (strip (stderr result)))
  | Raised FileNotFoundError => Returned (None, None)
  | Raised e => Raised e
  | StillRunning => StillRunning
  end.

(** [detect_oneplus_n200_adb] when its launch ends as [l]. *)
Definition detect_oneplus_n200_adb_at (l : launch_end) : result bool :=
  match run_at l with
  | Returned r => Returned (detect_oneplus_n200_adb_on (fst r))
  | Raised e => Raised e
  | StillRunning => StillRunning
  end.

(** [detect_oneplus_n200_fastboot] when its launch ends as [l]. *)
Definition detect_oneplus_n200_fastboot_at (l : launch_end) : result bool :=
  match run_at l with
  | Returned r => Returned (detect_oneplus_n200_fastboot_on r)
  | Raised e => Raised e
  | StillRunning => StillRunning
  end.

(** The ending a launch on a [Host] stands for. *)
Definition ended (o : option CompletedProcess) : launch_end :=
  match o with
  | Some p => Exited p
  | None => ProgramNotFound
  end.

(** The reading of the specification (section 8): whatever the command
    gives, the identity checks return and do not throw. *)
Definition identity_checks_never_throw : Prop :=
  forall l : launch_end,
    (exists b, detect_oneplus_n200_adb_at l = Returned b)
    /\ (exists b, detect_oneplus_n200_fastboot_at l = Returned b).

(* ================================================================= *)
(** ** A scripted machine

    A concrete [Host], to run the script on: the answer of the n-th launched
    process is looked up in a table, files are a list of paths, [zstd]
    creates its output file when it exits with 0. *)

Record machine : Type := mkMachine {
  answers : nat -> list string -> option CompletedProcess;
  launched : nat;
  files : list string;
  typed : string;
  http : string -> Z * list string;
  slept : nat
}.

Definition has_file (fs : list string) (path : string) : bool :=
  existsb (String.eqb path) fs.

Definition add_file (path : string) (fs : list string) : list string :=
  if has_file fs path then fs else (fs ++ [path])%list.

Definition under (directory path : string) : option string :=
  let d := directory ++ "/" in
  if startswith path d
  then Some (substring (String.length d) (String.length path - String.length d) path)
  else None.

Definition launch_effect (cmd : list string) (r : option CompletedProcess)
           (fs : list string) : list string :=
  match cmd, r with
  | [c0; _; _; _; _; dst], Some p =>
      if String.eqb c0 "zstd" && Z.eqb (returncode p) 0 then add_file dst fs else fs
  | _, _ => fs
  end.

#[export] Instance machine_host : Host machine := {|
  host_subprocess_run cmd m :=
    let r := answers m (launched m) cmd in
    (r, mkMachine (answers m) (S (launched m)) (launch_effect cmd r (files m))
                  (typed m) (http m) (slept m));
  host_path_exists path m := has_file (files m) path;
  host_listdir directory m :=
    flat_map (fun f => match under directory f with Some n => [n] | None => [] end)
             (files m);
  host_sleep n m :=
    mkMachine (answers m) (launched m) (files m) (typed m) (http m) (slept m + n);
  host_input _ m := (typed m, m);
  host_mkdtemp prefix m := ("/tmp/" ++ prefix ++ "k3x9q2ab", m);
  host_requests_get url m := (http m url, m);
  host_write_file path _ m :=
    mkMachine (answers m) (launched m) (add_file path (files m))
              (typed m) (http m) (slept m);
  host_rmtree directory m :=
    mkMachine (answers m) (launched m)
              (filter (fun f => match under directory f with Some _ => false | None => true end)
                      (files m))
              (typed m) (http m) (slept m)
|}.

Definition completed (rc : Z) (out err : string) : option CompletedProcess :=
  Some (mkCompleted rc out err).

Definition cmd_is (cmd expected : list string) : bool := list_string_eqb cmd expected.

Definition n200_fingerprint : string :=
  "(bootloader) system-fingerprint:OnePlus/OnePlusN200/OnePlusN200:11/RKQ1.201217.002/2209141752:user/release-keys".

(** A OnePlus N200 sitting in userspace fastboot; every tool is installed
    and every command succeeds. *)
Definition n200_in_fastbootd (n : nat) (cmd : list string) : option CompletedProcess :=
  if cmd_is cmd ["adb"; "devices"] then completed 0 ("List of devices attached" ++ nl ++ nl) ""
  else if cmd_is cmd ["fastboot"; "devices"] then completed 0 ("8f2a91c3" ++ tab ++ "fastboot" ++ nl) ""
  else if cmd_is cmd ["fastboot"; "getvar"; "is-userspace"]
       then completed 0 "" ("is-userspace: yes" ++ nl ++ "Finished. Total time: 0.001s" ++ nl)
  else if cmd_is cmd ["fastboot"; "getvar"; "all"]
       then completed 0 "" (n200_fingerprint ++ nl ++ "(bootloader) is-userspace:yes" ++ nl)
  else completed 0 "" "".

(** Nothing is attached: the tools run and list no device. *)
Definition nothing_attached (n : nat) (cmd : list string) : option CompletedProcess :=
  if cmd_is cmd ["adb"; "devices"] then completed 0 ("List of devices attached" ++ nl ++ nl) ""
  else if cmd_is cmd ["fastboot"; "getvar"; "is-userspace"]
       then completed 1 "" ("< waiting for any device >" ++ nl)
  else if cmd_is cmd ["fastboot"; "getvar"; "all"]
       then completed 1 "" ("< waiting for any device >" ++ nl)
  else completed 0 "" "".

Definition http_ok (url : string) : Z * list string := (200%Z, ["blob"]).

Definition boot (ans : nat -> list string -> option CompletedProcess)
           (fs : list string) : machine :=
  mkMachine ans 0 fs "yes" http_ok 0.

(** The eighteen images unpacked into [directory], except [missing]. *)
Definition images_except (directory missing : string) : list string :=
  map (fun spec => path_join directory (snd spec))
      (filter (fun spec => negb (String.eqb (snd spec) missing)) FLASH_COMMANDS).

(** A OnePlus N200 in userspace fastboot that drops off the bus for the
    fourth launch only (the presence poll inside [ensure_fastbootd] when
    [main] starts with the device already in fastboot). *)
Definition usb_dropout (n : nat) (cmd : list string) : option CompletedProcess :=
  if (n =? 3)%nat then completed 0 "" "" else n200_in_fastbootd n cmd.

(** A OnePlus N200 seen over the bridge that never shows up in fastboot
    after the reboot command. *)
Definition bridge_then_gone (n : nat) (cmd : list string) : option CompletedProcess :=
  if cmd_is cmd ["adb"; "devices"]
  then completed 0 ("List of devices attached" ++ nl ++ "8f2a91c3" ++ tab ++ "device" ++ nl ++ nl) ""
  else if cmd_is cmd ["adb"; "shell"; "getprop"]
  then completed 0 ("[ro.product.model]: [DE2117]" ++ nl ++ "[ro.product.name]: [OnePlusN200]" ++ nl) ""
  else nothing_attached n cmd.

(** A fastboot device that does not know the is-userspace variable. *)
Definition mode_not_reported (n : nat) (cmd : list string) : option CompletedProcess :=
  if cmd_is cmd ["fastboot"; "getvar"; "is-userspace"]
  then completed 1 "" ("getvar:is-userspace FAILED (remote: unknown command)" ++ nl)
  else n200_in_fastbootd n cmd.

(** The device refuses every flash. *)
Definition flash_rejected (n : nat) (cmd : list string) : option CompletedProcess :=
  match cmd with
  | c0 :: c1 :: _ =>
      if String.eqb c0 "fastboot" && String.eqb c1 "flash"
      then completed 1 "" "FAILED (remote: partition is write protected)"
      else n200_in_fastbootd n cmd
  | _ => n200_in_fastbootd n cmd
  end.

(** [zstd] is not installed. *)
Definition no_zstd (n : nat) (cmd : list string) : option CompletedProcess :=
  match cmd with
  | c0 :: _ => if String.eqb c0 "zstd" then None else n200_in_fastbootd n cmd
  | _ => n200_in_fastbootd n cmd
  end.

(** The [fastboot] binary is found for the first launch and not afterwards. *)
Definition fastboot_vanishes (n : nat) (cmd : list string) : option CompletedProcess :=
  if (n =? 0)%nat then n200_in_fastbootd n cmd else None.

(** The line [ensure_fastbootd] prints when it returns [False]. *)
Definition is_failed_transition (e : event) : bool :=
  match e with
  | Printed text => String.eqb text "No fastboot device detected."
  | _ => false
  end.

(** The events after the first one that satisfies [p]. *)
Fixpoint after_first (p : event -> bool) (t : list event) : list event :=
  match t with
  | [] => []
  | e :: t' => if p e then t' else after_first p t'
  end.

(** The worlds of a sweep on a OnePlus N200 in userspace fastboot whose
    directory lacks tz.img only. *)
Definition tz_missing_world (m : machine) : Prop :=
  answers m = n200_in_fastbootd /\ files m = images_except "/tmp/x" "tz.img".

(** The worlds in which nothing is attached. *)
Definition nothing_attached_world (m : machine) : Prop :=
  answers m = nothing_attached.

(** One turn of the loop of [ensure_fastbootd] that waits three seconds and
    goes round again: the two polls, the warning, the sleep, then the rest
    of the loop. *)
Definition retries_after_short_delay {W : Type} {host : Host W}
           (fuel : nat) (w : W) : Prop :=
  let poll1 := detect_fastboot_mode w in
  let poll2 := fastboot_device_present (world_after poll1) in
  ensure_fastbootd_loop (S fuel) w =
  preceded_by (events poll1 ++ events poll2
               ++ [Printed "⚠ Unknown fastboot mode. Retrying in 3s..."; Sleep 3])%list
              (ensure_fastbootd_loop fuel (host_sleep 3 (world_after poll2))).

(** The reading of section 4.2: a turn on which the submode is unknown or
    the device is absent waits and retries. *)
Definition retry_on_unknown_or_absent : Prop :=
  forall (W : Type) (host : Host W) (fuel : nat) (w : W),
    let poll1 := detect_fastboot_mode w in
    let poll2 := fastboot_device_present (world_after poll1) in
    outcome poll1 = Returned "unknown" \/ outcome poll2 = Returned false ->
    retries_after_short_delay fuel w.

(* ================================================================= *)
(** ** More ways to read a log, and the loop bodies by name *)

(** The command lines launched, in order. *)
Definition launches (t : list event) : list (list string) :=
  flat_map (fun e => match e with Run cmd => [cmd] | _ => [] end) t.

(** The durations slept, in order. *)
Definition sleeps (t : list event) : list nat :=
  flat_map (fun e => match e with Sleep n => [n] | _ => [] end) t.

(** The URLs fetched, in order. *)
Definition fetches (t : list event) : list string :=
  flat_map (fun e => match e with HttpGet url => [url] | _ => [] end) t.

(** The paths written, in order. *)
Definition writes (t : list event) : list string :=
  flat_map (fun e => match e with WriteFile path => [path] | _ => [] end) t.

(** The directories removed, in order. *)
Definition removals (t : list event) : list string :=
  flat_map (fun e => match e with Rmtree path => [path] | _ => [] end) t.

(** [l] is [m] with some elements left out. *)
Inductive subseq {A : Type} : list A -> list A -> Prop :=
| subseq_nil : subseq [] []
| subseq_skip (x : A) (l m : list A) : subseq l m -> subseq l (x :: m)
| subseq_keep (x : A) (l m : list A) : subseq l m -> subseq (x :: l) (x :: m).

(** The flash command of a partition spec. *)
Definition flash_cmd_of (directory : string) (spec : string * string) : list string :=
  flash_cmd (fst spec) (path_join directory (snd spec)).

(** The [zstd] command line of [extract_zst_files] for one file name. *)
Definition zstd_cmd (directory filename : string) : list string :=
  [ "zstd"; "-d"; "-f"; path_join directory filename; "-o";
    path_join directory (drop_last 4 filename) ].

(** No flash command in [t]. *)
Definition flashless (t : list event) : Prop := filter is_flash_command t = [].

Section ScriptParts.

Context {W : Type} {host : Host W}.

(** The body of the [for] loop of [download_files]. *)
Definition download_one (tmp_dir filename : string) : M unit :=
  let url := BASE_URL ++ filename in
  let dest_path := path_join tmp_dir filename in
  bind (os_path_exists dest_path) (fun there =>
  if there then ret tt
  else
    bind (print ("[*] Downloading " ++ filename ++ "...")) (fun _ =>
    bind (requests_get url) (fun resp =>
    if negb (Z.eqb (fst resp) 200) then
      print ("[-] Failed to download " ++ filename ++ ": HTTP " ++ str_of_Z (fst resp))
    else
      bind (write_file dest_path (snd resp)) (fun _ =>
      print ("[+] Downloaded " ++ filename))))).

(** The body of the [for] loop of [extract_zst_files]. *)
Definition extract_one (directory filename : string) : M unit :=
  if endswith filename ".zst" then
    let zst_path := path_join directory filename in
    let out_path := path_join directory (drop_last 4 filename) in
    bind (print ("[*] Extracting " ++ filename ++ " -> " ++ out_path)) (fun _ =>
    let cmd := ["zstd"; "-d"; "-f"; zst_path; "-o"; out_path] in
    bind (subprocess_run cmd) (fun result =>
    if negb (Z.eqb (returncode result) 0) then
      print ("[-] Failed to extract " ++ filename ++ ": " ++ stderr result)
    else
      print ("[+] Extracted " ++ filename)))
  else ret tt.

(** Every flash command of the run [r] was launched by one call of
    [flash_images] whose identity check passed: either the log of [r] holds no
    flash command, or it is the log of such a call between two stretches
    without flash commands. *)
Definition flashes_through_flash_images {A : Type}
           (r : result A * W * list event) : Prop :=
  flashless (events r)
  \/ exists pre directory w' post,
      events r = (pre ++ events (flash_images directory w') ++ post)%list
      /\ flashless pre /\ flashless post
      /\ outcome (detect_oneplus_n200_fastboot w') = Returned true.

End ScriptParts.

(** A OnePlus N200 that is in bootloader fastboot for the first three
    launches and in userspace fastboot afterwards. *)
Definition bootloader_then_fastbootd (n : nat) (cmd : list string)
  : option CompletedProcess :=
  if (n <? 3)%nat && cmd_is cmd ["fastboot"; "getvar"; "is-userspace"]
  then completed 0 "" ("is-userspace: no" ++ nl ++ "Finished. Total time: 0.001s" ++ nl)
  else n200_in_fastbootd n cmd.

(** Another phone on the bridge. *)
Definition other_phone_on_bridge (n : nat) (cmd : list string) : option CompletedProcess :=
  if cmd_is cmd ["adb"; "devices"]
  then completed 0 ("List of devices attached" ++ nl ++ "R58M12345" ++ tab ++ "device" ++ nl ++ nl) ""
  else if cmd_is cmd ["adb"; "shell"; "getprop"]
  then completed 0 ("[ro.product.model]: [SM-G991B]" ++ nl ++ "[ro.product.name]: [o1sxeea]" ++ nl) ""
  else nothing_attached n cmd.

(** Another phone in userspace fastboot. *)
Definition other_phone_in_fastbootd (n : nat) (cmd : list string) : option CompletedProcess :=
  if cmd_is cmd ["fastboot"; "getvar"; "all"]
  then completed 0 "" ("(bootloader) system-fingerprint:google/redfin/redfin:13/TQ3A/1:user/release-keys" ++ nl)
  else n200_in_fastbootd n cmd.

(** The server has none of the files. *)
Definition http_not_found (url : string) : Z * list string := (404%Z, []).

(** A machine whose user types [answer] at the prompt. *)
Definition boot_typing (answer : string)
           (ans : nat -> list string -> option CompletedProcess) : machine :=
  mkMachine ans 0 [] answer http_ok 0.

(** Closes a [Forall] over a list that is written out. *)
Ltac forall_listed :=
  repeat (apply Forall_cons; [solve [auto 6] |]); apply Forall_nil.

(** The fastboot program is not installed; nothing is attached. *)
Definition no_fastboot (n : nat) (cmd : list string) : option CompletedProcess :=
  match cmd with
  | c0 :: _ => if String.eqb c0 "fastboot" then None else nothing_attached n cmd
  | [] => nothing_attached n cmd
  end.

(** A machine whose server has none of the files. *)
Definition boot_offline (ans : nat -> list string -> option CompletedProcess) : machine :=
  mkMachine ans 0 [] "yes" http_not_found 0.

(* ================================================================= *)
(** ** mtk-comfinder: waiting for a MediaTek preloader port

    A shallow embedding of [src/mediatek-projects/mtk-comfinder.py].  The
    poll interval is a float the script only hands to [time.sleep]; it is
    kept as a value of a type the host chooses. *)

Module MtkComFinder.

(** What the script reads of a [serial.tools.list_ports] entry. *)
Record ListPortInfo : Type := mkPort {
  device : string;
  description : option string;
  hwid : option string;
  vid : option Z;
  pid : option Z
}.

Definition MTK_KEYWORDS : list string :=
  ["MediaTek"; "MTK"; "Preloader"; "USB VCOM"].

(** 0x0E8D *)
Definition MTK_VID : Z := 3725.

(** [(port.device, port.hwid)] *)
Definition port_id (port : ListPortInfo) : string * option string :=
  (device port, hwid port).

Definition port_id_eqb (a b : string * option string) : bool :=
  String.eqb (fst a) (fst b)
  && match snd a, snd b with
     | Some x, Some y => String.eqb x y
     | None, None => true
     | _, _ => false
     end.

(** [port_id in seen_ports] *)
Definition seen_has (seen : list (string * option string))
           (id : string * option string) : bool :=
  existsb (port_id_eqb id) seen.

Definition port_text (port : ListPortInfo) : string :=
  or_empty (description port) ++ " " ++ or_empty (hwid port).

Definition keyword_match (port : ListPortInfo) : bool :=
  existsb (fun keyword => contains (lower keyword) (lower (port_text port)))
          MTK_KEYWORDS.

Definition vid_pid_match (port : ListPortInfo) : bool :=
  match vid port, pid port with
  | Some v, Some _ => Z.eqb v MTK_VID
  | _, _ => false
  end.

Definition is_mtk (port : ListPortInfo) : bool :=
  keyword_match port || vid_pid_match port.

(** The [for] loop over one listing: the device of the first port that had
    not been seen and matches, and the ports seen so far. *)
Fixpoint scan_ports (ports : list ListPortInfo) (seen : list (string * option string))
  : option string * list (string * option string) :=
  match ports with
  | [] => (None, seen)
  | port :: rest =>
      if seen_has seen (port_id port) then scan_ports rest seen
      else
        let seen' := port_id port :: seen in
        if is_mtk port then (Some (device port), seen')
        else scan_ports rest seen'
  end.

(** What the script asks of its machine. *)
Class SerialHost (W Interval : Type) : Type := mkSerialHost {
  host_comports : W -> list ListPortInfo * W;
  host_sleep_for : Interval -> W -> W
}.

Inductive port_event : Type :=
| Said (text : string)
| Listed
| Waited.

Section Finder.

Context {W Interval : Type} {serial : SerialHost W Interval}.

(** The [while True] loop, followed for [fuel] turns. *)
Fixpoint find_loop (poll_interval : Interval) (fuel : nat)
         (seen : list (string * option string)) (w : W)
  : result string * W * list port_event :=
  match fuel with
  | O => (StillRunning, w, [])
  | S fuel' =>
      let (ports, w1) := host_comports w in
      match scan_ports ports seen with
      | (Some dev, _) =>
          (Returned dev, w1, [Listed; Said ("MTK Preloader detected on " ++ dev)])
      | (None, seen') =>
          match find_loop poll_interval fuel' seen' (host_sleep_for poll_interval w1) with
          | (r, w2, t) => (r, w2, Listed :: Waited :: t)
          end
      end
  end.

(** The world at the start of the turn that follows [k] turns without a
    match: each such turn reads a listing and sleeps. *)
Fixpoint turn_world (poll_interval : Interval) (k : nat) (w : W) : W :=
  match k with
  | O => w
  | S k' =>
      turn_world poll_interval k'
                 (host_sleep_for poll_interval (snd (host_comports w)))
  end.

Definition find_mtk_preloader (poll_interval : Interval) (fuel : nat) (w : W)
  : result string * W * list port_event :=
  match find_loop poll_interval fuel [] w with
  | (r, w1, t) => (r, w1, Said "Waiting for MTK Preloader device..." :: t)
  end.

End Finder.

(** A scripted machine: the n-th listing is [script n]. *)
Definition scripted_ports (script : nat -> list ListPortInfo) : SerialHost nat unit :=
  {| host_comports n := (script n, S n);
     host_sleep_for _ n := n |}.

Definition modem_port : ListPortInfo :=
  mkPort "COM3" (Some "Standard Modem") (Some "USB VID:PID=1234:5678") (Some 4660%Z) (Some 22136%Z).

Definition preloader_port : ListPortInfo :=
  mkPort "COM6" (Some "MediaTek PreLoader USB VCOM (Android)")
         (Some "USB VID:PID=0E8D:2000") (Some 3725%Z) (Some 8192%Z).

(** The same port name and hardware id as [modem_port], now with the
    MediaTek numbers. *)
Definition modem_port_renumbered : ListPortInfo :=
  mkPort "COM3" (Some "Standard Modem") (Some "USB VID:PID=1234:5678") (Some 3725%Z) (Some 8192%Z).

(** The preloader shows up at the third listing. *)
Definition preloader_at_third (n : nat) : list ListPortInfo :=
  if (n <? 2)%nat then [modem_port] else [modem_port; preloader_port].

(** Only the modem, ever. *)
Definition modem_only (n : nat) : list ListPortInfo := [modem_port].

End MtkComFinder.

(* ================================================================= *)
(** ** Facts about the text primitives *)

Section TextFacts.

Lemma append_nil_r (s : string) : s ++ "" = s.
Proof. induction s as [|c r IH]; simpl; [reflexivity | now rewrite IH]. Qed.

Lemma append_assoc (a b c : string) : (a ++ b) ++ c = a ++ (b ++ c).
Proof. induction a as [|x a IH]; simpl; [reflexivity | now rewrite IH]. Qed.

Lemma length_append (a b : string) :
  String.length (a ++ b) = String.length a + String.length b.
Proof. induction a as [|x a IH]; simpl; [reflexivity | now rewrite IH]. Qed.

Lemma startswith_spec (s p : string) :
  startswith s p = true <-> exists b, s = p ++ b.
Proof.
  revert s; induction p as [|a p IH]; intros s.
  - split; [intros _; now exists s | now destruct s].
  - destruct s as [|b s].
    + split; [discriminate | intros [x Hx]; discriminate].
    + change (startswith (String b s) (String a p))
        with (Ascii.eqb a b && startswith s p).
      rewrite andb_true_iff, Ascii.eqb_eq, IH. split.
      * intros [-> [x ->]]. now exists x.
      * intros [x Hx]. injection Hx as -> ->. split; [reflexivity | now exists x].
Qed.

Lemma contains_spec (sub s : string) :
  contains sub s = true <-> has_token sub s.
Proof.
  unfold has_token. induction s as [|c s IH].
  - cbn [contains]. rewrite orb_false_r, startswith_spec. split.
    + intros [b Hb]. now exists "", b.
    + intros [a [b Hab]]. destruct a; simpl in Hab.
      * now exists b.
      * discriminate.
  - cbn [contains]. rewrite orb_true_iff, startswith_spec, IH. split.
    + intros [[b Hb] | [a [b Hab]]].
      * now exists "", b.
      * exists (String c a), b. simpl. now rewrite Hab.
    + intros [a [b Hab]]. destruct a as [|x a]; simpl in Hab.
      * left. now exists b.
      * right. injection Hab as _ ->. now exists a, b.
Qed.

Lemma lower_append (a b : string) : lower (a ++ b) = lower a ++ lower b.
Proof. induction a as [|x a IH]; simpl; [reflexivity | now rewrite IH]. Qed.

Lemma lower_split (s x y : string) :
  lower s = x ++ y -> exists a b, s = a ++ b /\ lower a = x /\ lower b = y.
Proof.
  revert s; induction x as [|c x IH]; intros s H; simpl in H.
  - exists "", s. auto.
  - destruct s as [|d s]; simpl in H; [discriminate|].
    injection H as Hc Hr. destruct (IH _ Hr) as [a [b [-> [Ha Hb]]]].
    exists (String d a), b. simpl. rewrite Ha, Hc. auto.
Qed.

Lemma contains_lower_spec (t line : string) :
  contains t (lower line) = true <-> has_token_nocase t line.
Proof.
  rewrite contains_spec. unfold has_token, has_token_nocase. split.
  - intros [a' [b' H]].
    destruct (lower_split _ _ _ H) as [a [r [-> [_ Hr]]]].
    destruct (lower_split _ _ _ Hr) as [u [b [-> [Hu _]]]].
    now exists a, u, b.
  - intros [a [u [b [-> Hu]]]]. exists (lower a), (lower b).
    now rewrite !lower_append, Hu.
Qed.

Lemma substring_skip (a b : string) (m : nat) :
  substring (String.length a) m (a ++ b) = substring 0 m b.
Proof. induction a as [|x a IH]; simpl; [reflexivity | exact IH]. Qed.

Lemma substring_all (s : string) : substring 0 (String.length s) s = s.
Proof. induction s as [|x s IH]; simpl; [reflexivity | now rewrite IH]. Qed.

Lemma substring_cut (s : string) (k : nat) :
  k <= String.length s ->
  s = substring 0 k s ++ substring k (String.length s - k) s.
Proof.
  revert k; induction s as [|x s IH]; intros k Hk; simpl in Hk.
  - assert (k = 0) by lia. subst. reflexivity.
  - destruct k as [|k].
    + simpl. now rewrite substring_all.
    + simpl. rewrite <- IH by lia. reflexivity.
Qed.

Lemma endswith_spec (s suf : string) :
  endswith s suf = true <-> exists a, s = a ++ suf.
Proof.
  unfold endswith. rewrite andb_true_iff, Nat.leb_le, String.eqb_eq. split.
  - intros [Hle Hsub].
    exists (substring 0 (String.length s - String.length suf) s).
    pose proof (substring_cut s (String.length s - String.length suf)) as Hcut.
    replace (String.length s - (String.length s - String.length suf))
      with (String.length suf) in Hcut by lia.
    rewrite Hsub in Hcut. apply Hcut. lia.
  - intros [a ->]. rewrite length_append. split; [lia|].
    replace (String.length a + String.length suf - String.length suf)
      with (String.length a) by lia.
    rewrite substring_skip. apply substring_all.
Qed.

Lemma blank_append (a b : string) : blank (a ++ b) = blank a && blank b.
Proof.
  induction a as [|x a IH]; simpl; [reflexivity|].
  now rewrite IH, andb_assoc.
Qed.

Lemma lstrip_empty (s : string) : lstrip s = "" <-> blank s = true.
Proof.
  induction s as [|c s IH]; simpl; [tauto|].
  destruct (isspace c); simpl; [exact IH | split; discriminate].
Qed.

Lemma blank_lstrip (s : string) : blank (lstrip s) = blank s.
Proof.
  induction s as [|c s IH]; simpl; [reflexivity|].
  destruct (isspace c) eqn:E; simpl; [exact IH | now rewrite E].
Qed.

Lemma rstrip_empty (s : string) : rstrip s = "" <-> blank s = true.
Proof.
  induction s as [|c s IH]; simpl; [tauto|].
  destruct (rstrip s) eqn:E.
  - assert (Hs : blank s = true) by now apply IH.
    rewrite Hs, andb_true_r. destruct (isspace c); split; congruence.
  - split; [discriminate|]. rewrite andb_true_iff. intros [_ Hs].
    apply IH in Hs. discriminate.
Qed.

Lemma strip_empty (s : string) : strip s = "" <-> blank s = true.
Proof. unfold strip. now rewrite rstrip_empty, blank_lstrip. Qed.

Lemma truthy_strip (s : string) : truthy (strip s) = negb (blank s).
Proof.
  destruct (blank s) eqn:E.
  - apply strip_empty in E. now rewrite E.
  - destruct (strip s) eqn:F; [|reflexivity].
    apply strip_empty in F. congruence.
Qed.

Lemma blank_rstrip (s : string) : blank (rstrip s) = blank s.
Proof.
  induction s as [|c s IH]; simpl; [reflexivity|].
  destruct (rstrip s) eqn:E.
  - assert (Hs : blank s = true) by now apply rstrip_empty.
    rewrite Hs, andb_true_r. destruct (isspace c) eqn:F; simpl; [reflexivity|].
    now rewrite F.
  - rewrite <- IH. reflexivity.
Qed.

Lemma blank_strip (s : string) : blank (strip s) = blank s.
Proof. unfold strip. now rewrite blank_rstrip, blank_lstrip. Qed.

Lemma or_empty_some (s : string) : or_empty (Some s) = s.
Proof. now destruct s. Qed.

End TextFacts.

Lemma append_tail_inj (a b x y : string) :
  a ++ x = b ++ y -> String.length x = String.length y -> x = y.
Proof.
  revert b; induction a as [|c a IH]; intros b H L.
  - destruct b as [|d b]; [exact H|].
    simpl in H. rewrite H in L. simpl in L. rewrite length_append in L. lia.
  - destruct b as [|d b].
    + simpl in H. rewrite <- H in L. simpl in L. rewrite length_append in L. lia.
    + simpl in H. injection H as _ H. now apply (IH b).
Qed.

Lemma endswith_other_state (s state : string) (k : nat) :
  String.length state = k + 6 ->
  substring k 6 state <> "device" ->
  endswith s state = true -> endswith s "device" = false.
Proof.
  intros L N H. destruct (endswith s "device") eqn:E; [|reflexivity]. exfalso.
  apply endswith_spec in H. apply endswith_spec in E.
  destruct H as [a Ha]. destruct E as [b Hb].
  rewrite (substring_cut state k) in Ha by lia.
  replace (String.length state - k) with 6 in Ha by lia.
  rewrite <- append_assoc in Ha. rewrite Ha in Hb.
  apply append_tail_inj in Hb; [contradiction|].
  assert (G : String.length state =
              String.length (substring 0 k state ++ substring k 6 state)).
  { rewrite (substring_cut state k) at 1 by lia.
    now replace (String.length state - k) with 6 by lia. }
  rewrite length_append in G.
  assert (G0 : String.length (substring 0 k state) <= k).
  { clear. revert k. induction state as [|c r IH]; intros [|k]; simpl; try lia.
    specialize (IH k). lia. }
  assert (G1 : String.length (substring k 6 state) <= 6).
  { clear. generalize 6 as m. revert k.
    induction state as [|c r IH]; intros [|k] [|m]; simpl; try lia.
    - specialize (IH 0 m). lia.
    - specialize (IH k 0). simpl in IH. apply IH.
    - apply IH. }
  simpl. lia.
Qed.

(* ================================================================= *)
(** ** Facts about the script *)

Section ScriptFacts.

Context {W : Type} {host : Host W}.

Lemma run_eq (cmd : list string) (w : W) :
  run cmd w =
  (Returned (run_on (fst (host_subprocess_run cmd w))),
   snd (host_subprocess_run cmd w), [Run cmd]).
Proof.
  unfold run, except_FileNotFoundError, bind, subprocess_run, ret.
  destruct (host_subprocess_run cmd w) as [[p|] w1]; reflexivity.
Qed.

Lemma adb_device_present_eq (w : W) :
  adb_device_present w =
  (Returned (adb_device_present_on (fst (run_on (fst (host_subprocess_run ["adb"; "devices"] w))))),
   snd (host_subprocess_run ["adb"; "devices"] w), [Run ["adb"; "devices"]]).
Proof. unfold adb_device_present, bind. rewrite run_eq. reflexivity. Qed.

Lemma detect_oneplus_n200_adb_eq (w : W) :
  detect_oneplus_n200_adb w =
  (Returned (detect_oneplus_n200_adb_on
               (fst (run_on (fst (host_subprocess_run ["adb"; "shell"; "getprop"] w))))),
   snd (host_subprocess_run ["adb"; "shell"; "getprop"] w),
   [Run ["adb"; "shell"; "getprop"]]).
Proof. unfold detect_oneplus_n200_adb, bind. rewrite run_eq. reflexivity. Qed.

Lemma fastboot_device_present_eq (w : W) :
  fastboot_device_present w =
  (Returned (fastboot_device_present_on
               (run_on (fst (host_subprocess_run ["fastboot"; "devices"] w)))),
   snd (host_subprocess_run ["fastboot"; "devices"] w),
   [Run ["fastboot"; "devices"]]).
Proof. unfold fastboot_device_present, bind. rewrite run_eq. reflexivity. Qed.

Lemma detect_fastboot_mode_eq (w : W) :
  detect_fastboot_mode w =
  (Returned (detect_fastboot_mode_on
               (run_on (fst (host_subprocess_run ["fastboot"; "getvar"; "is-userspace"] w)))),
   snd (host_subprocess_run ["fastboot"; "getvar"; "is-userspace"] w),
   [Run ["fastboot"; "getvar"; "is-userspace"]]).
Proof. unfold detect_fastboot_mode, bind. rewrite run_eq. reflexivity. Qed.

Lemma detect_oneplus_n200_fastboot_eq (w : W) :
  detect_oneplus_n200_fastboot w =
  (Returned (detect_oneplus_n200_fastboot_on
               (run_on (fst (host_subprocess_run ["fastboot"; "getvar"; "all"] w)))),
   snd (host_subprocess_run ["fastboot"; "getvar"; "all"] w),
   [Run ["fastboot"; "getvar"; "all"]]).
Proof. unfold detect_oneplus_n200_fastboot, bind. rewrite run_eq. reflexivity. Qed.

Lemma run_at_ended (o : option CompletedProcess) :
  run_at (ended o) = Returned (run_on o).
Proof. now destruct o. Qed.

(** C8, as the script has it.  On a [Host] each identity check is the check
    at the way its one launch ended.  At a launch that finds no program both
    checks return false.  At a launch that completes with text both checks
    return, and they return true exactly when one line of the text holds both
    tokens: ro.product.name and OnePlusN200 as written for the bridge check
    (on the stripped standard output), system-fingerprint and oneplusn200 in
    any letter case for the fastboot check (on the stripped standard output
    followed by the stripped standard error).  A check raises exactly when
    its launch raises something other than FileNotFoundError, and it raises
    the same exception: [run] catches nothing else. *)
Theorem identity_checks_raise_only_what_run_lets_through :
  (forall w : W,
      outcome (detect_oneplus_n200_adb w) =
      detect_oneplus_n200_adb_at
        (ended (fst (host_subprocess_run ["adb"; "shell"; "getprop"] w))))
  /\ (forall w : W,
      outcome (detect_oneplus_n200_fastboot w) =
      detect_oneplus_n200_fastboot_at
        (ended (fst (host_subprocess_run ["fastboot"; "getvar"; "all"] w))))
  /\ detect_oneplus_n200_adb_at ProgramNotFound = Returned false
  /\ detect_oneplus_n200_fastboot_at ProgramNotFound = Returned false
  /\ (forall p : CompletedProcess,
      exists b, detect_oneplus_n200_adb_at (Exited p) = Returned b
                /\ (b = true <->
                    exists line, In line (splitlines (strip (stdout p)))
                                 /\ has_token "ro.product.name" line
                                 /\ has_token "OnePlusN200" line))
  /\ (forall p : CompletedProcess,
      exists b, detect_oneplus_n200_fastboot_at (Exited p) = Returned b
                /\ (b = true <->
                    exists line, In line (splitlines (strip (stdout p) ++ strip (stderr p)))
                                 /\ has_token_nocase "system-fingerprint" line
                                 /\ has_token_nocase "oneplusn200" line))
  /\ (forall (l : launch_end) (e : exn),
      detect_oneplus_n200_adb_at l = Raised e <->
      subprocess_run_at l = Raised e /\ e <> FileNotFoundError)
  /\ (forall (l : launch_end) (e : exn),
      detect_oneplus_n200_fastboot_at l = Raised e <->
      subprocess_run_at l = Raised e /\ e <> FileNotFoundError).
Proof.
  split; [|split; [|split; [|split; [|split; [|split; [|split]]]]]].
  - intros w. rewrite detect_oneplus_n200_adb_eq.
    unfold detect_oneplus_n200_adb_at. now rewrite run_at_ended.
  - intros w. rewrite detect_oneplus_n200_fastboot_eq.
    unfold detect_oneplus_n200_fastboot_at. now rewrite run_at_ended.
  - reflexivity.
  - reflexivity.
  - intros p. eexists. split; [reflexivity|].
    cbn [detect_oneplus_n200_adb_on fst]. rewrite existsb_exists. split.
    + intros [line [Hin H]]. apply andb_true_iff in H.
      rewrite !contains_spec in H. now exists line.
    + intros [line [Hin [H1 H2]]]. exists line.
      rewrite andb_true_iff, !contains_spec. auto.
  - intros p. eexists. split; [reflexivity|].
    unfold detect_oneplus_n200_fastboot_on. cbn [fst snd].
    rewrite !or_empty_some, existsb_exists. split.
    + intros [line [Hin H]]. apply andb_true_iff in H.
      rewrite !contains_lower_spec in H. now exists line.
    + intros [line [Hin [H1 H2]]]. exists line.
      rewrite andb_true_iff, !contains_lower_spec. auto.
  - intros l e. destruct l; cbn; split;
      try discriminate; try (intros [H _]; discriminate H);
      try (intros [H N]; injection H as <-; now contradiction N);
      try (intros H; injection H as <-; split; [reflexivity | discriminate]);
      try (intros [H _]; injection H as <-; reflexivity).
  - intros l e. destruct l; cbn; split;
      try discriminate; try (intros [H _]; discriminate H);
      try (intros [H N]; injection H as <-; now contradiction N);
      try (intros H; injection H as <-; split; [reflexivity | discriminate]);
      try (intros [H _]; injection H as <-; reflexivity).
Qed.

(** C9.  [fastboot_device_present] always returns; it answers true exactly
    when the command ran and its standard output followed by its standard
    error is not empty once stripped.  So any text that is not all
    whitespace counts as a device, also when it stands on the standard
    error alone. *)
Theorem fastboot_device_present_iff_any_output :
  (forall w : W,
      fastboot_device_present w =
      (Returned (fastboot_device_present_on
                   (run_on (fst (host_subprocess_run ["fastboot"; "devices"] w)))),
       snd (host_subprocess_run ["fastboot"; "devices"] w),
       [Run ["fastboot"; "devices"]]))
  /\ fastboot_device_present_on (run_on None) = false
  /\ (forall p : CompletedProcess,
      fastboot_device_present_on (run_on (Some p)) = true <->
      strip (stdout p ++ stderr p) <> "")
  /\ (forall (rc : Z) (out err : string),
      strip err <> "" ->
      fastboot_device_present_on (run_on (completed rc out err)) = true).
Proof.
  assert (E : forall p : CompletedProcess,
             fastboot_device_present_on (run_on (Some p)) =
             negb (blank (stdout p ++ stderr p))).
  { intros p. unfold fastboot_device_present_on. simpl fst. simpl snd.
    rewrite !or_empty_some, truthy_strip, !blank_append, !blank_strip.
    reflexivity. }
  repeat split.
  - apply fastboot_device_present_eq.
  - rewrite E. intros H F. apply strip_empty in F. rewrite F in H. discriminate.
  - rewrite E. intros H. destruct (blank (stdout p ++ stderr p)) eqn:F; [|reflexivity].
    apply strip_empty in F. contradiction.
  - intros rc out err H. unfold completed. rewrite E. simpl.
    rewrite blank_append. destruct (blank err) eqn:F.
    + apply strip_empty in F. contradiction.
    + now rewrite andb_false_r.
Qed.

(** C10.  [adb_device_present] always returns; it answers true exactly when
    the command ran and some line after the first one of its (stripped)
    standard output, once stripped itself, ends with the text device.  A line
    that ends with unauthorized or offline does not end with device, so an
    output whose later lines are all in those states gives false. *)
Theorem adb_device_present_iff_later_line_ends_with_device :
  (forall w : W,
      adb_device_present w =
      (Returned (adb_device_present_on
                   (fst (run_on (fst (host_subprocess_run ["adb"; "devices"] w))))),
       snd (host_subprocess_run ["adb"; "devices"] w), [Run ["adb"; "devices"]]))
  /\ (forall o : option CompletedProcess,
      adb_device_present_on (fst (run_on o)) = true <->
      exists p line, o = Some p
                     /\ In line (tl (splitlines (strip (stdout p))))
                     /\ exists a, strip line = a ++ "device")
  /\ (forall p : CompletedProcess,
      (forall line, In line (tl (splitlines (strip (stdout p)))) ->
                    (exists a, strip line = a ++ "unauthorized")
                    \/ (exists a, strip line = a ++ "offline")) ->
      adb_device_present_on (fst (run_on (Some p))) = false).
Proof.
  repeat split.
  - apply adb_device_present_eq.
  - destruct o as [p|]; simpl; [|discriminate].
    rewrite existsb_exists. intros [line [Hin H]].
    exists p, line. rewrite endswith_spec in H. auto.
  - intros [p [line [-> [Hin H]]]]. simpl. rewrite existsb_exists.
    exists line. rewrite endswith_spec. auto.
  - intros p H. simpl.
    destruct (existsb _ _) eqn:E; [|reflexivity]. exfalso.
    apply existsb_exists in E. destruct E as [line [Hin He]].
    destruct (H line Hin) as [Hs | Hs]; apply endswith_spec in Hs.
    + apply (endswith_other_state _ _ 6) in Hs;
        [congruence | reflexivity | discriminate].
    + apply (endswith_other_state _ _ 1) in Hs;
        [congruence | reflexivity | discriminate].
Qed.

End ScriptFacts.

Section SweepFacts.

Context {W : Type} {host : Host W}.

Lemma bind_returned {A B} (m : M A) (k : A -> M B) (w w1 : W) (a : A) (t1 : list event) :
  m w = (Returned a, w1, t1) ->
  bind m k w = preceded_by t1 (k a w1).
Proof. intros H. unfold bind, preceded_by. rewrite H. reflexivity. Qed.

Lemma bind_print {B} (text : string) (k : unit -> M B) (w : W) :
  bind (print text) k w = preceded_by [Printed text] (k tt w).
Proof. reflexivity. Qed.

Lemma preceded_by_app {A} (t1 t2 : list event) (r : result A * W * list event) :
  preceded_by t1 (preceded_by t2 r) = preceded_by (t1 ++ t2) r.
Proof. destruct r as [[a w] t]. simpl. now rewrite app_assoc. Qed.

Lemma outcome_preceded_by {A} (t : list event) (r : result A * W * list event) :
  outcome (preceded_by t r) = outcome r.
Proof. now destruct r as [[a w] t']. Qed.

Lemma events_preceded_by {A} (t : list event) (r : result A * W * list event) :
  events (preceded_by t r) = (t ++ events r)%list.
Proof. now destruct r as [[a w] t']. Qed.

Lemma world_preceded_by {A} (t : list event) (r : result A * W * list event) :
  world_after (preceded_by t r) = world_after r.
Proof. now destruct r as [[a w] t']. Qed.

(** The three ways one turn of the sweep can end when the launch, if any,
    finds its program. *)
Lemma flash_one_missing (directory partition img_file : string) (w : W) :
  host_path_exists (path_join directory img_file) w = false ->
  flash_one directory (partition, img_file) w =
  (Returned tt, w, outcome_events directory (partition, img_file) SkippedMissingFile).
Proof.
  intros H. unfold flash_one, bind, os_path_exists. rewrite H. reflexivity.
Qed.

Lemma flash_one_launched (directory partition img_file : string) (w w1 : W)
      (p : CompletedProcess) :
  host_path_exists (path_join directory img_file) w = true ->
  host_subprocess_run (flash_cmd partition (path_join directory img_file)) w = (Some p, w1) ->
  flash_one directory (partition, img_file) w =
  (Returned tt, w1,
   outcome_events directory (partition, img_file)
                  (if Z.eqb (returncode p) 0 then Flashed else Failed (stderr p))).
Proof.
  intros H R. unfold flash_one, bind, os_path_exists, subprocess_run, print.
  rewrite H. simpl. rewrite R. destruct (Z.eqb (returncode p) 0); reflexivity.
Qed.

Lemma flash_one_not_found (directory partition img_file : string) (w w1 : W) :
  host_path_exists (path_join directory img_file) w = true ->
  host_subprocess_run (flash_cmd partition (path_join directory img_file)) w = (None, w1) ->
  flash_one directory (partition, img_file) w =
  (Raised FileNotFoundError, w1,
   [ Printed ("[*] Flashing " ++ partition ++ " -> " ++ img_file);
     Run (flash_cmd partition (path_join directory img_file)) ]).
Proof.
  intros H R. unfold flash_one, bind, os_path_exists, subprocess_run, print.
  rewrite H. simpl. rewrite R. reflexivity.
Qed.

Lemma flash_sweep_cons (directory : string) (spec : string * string)
      (rest : list (string * string)) (w w1 : W) (t : list event) :
  flash_one directory spec w = (Returned tt, w1, t) ->
  flash_sweep directory (spec :: rest) w = preceded_by t (flash_sweep directory rest w1).
Proof.
  intros H. unfold flash_sweep. cbn [for_each].
  exact (bind_returned (flash_one directory spec)
                       (fun _ => for_each rest (flash_one directory)) w w1 tt t H).
Qed.

Lemma flash_sweep_shape (directory : string) (specs : list (string * string)) (w : W) :
  match outcome (flash_sweep directory specs w) with
  | Returned _ =>
      exists os, length os = length specs
                 /\ events (flash_sweep directory specs w) = report directory specs os
  | Raised e => e = FileNotFoundError
  | StillRunning => False
  end.
Proof.
  revert w; induction specs as [|[partition img_file] rest IH]; intros w.
  - simpl. now exists [].
  - destruct (host_path_exists (path_join directory img_file) w) eqn:E.
    + destruct (host_subprocess_run (flash_cmd partition (path_join directory img_file)) w)
        as [[p|] w1] eqn:R.
      * rewrite (flash_sweep_cons _ _ _ _ _ _ (flash_one_launched _ _ _ _ _ _ E R)).
        rewrite outcome_preceded_by, events_preceded_by.
        specialize (IH w1). destruct (outcome (flash_sweep directory rest w1)); auto.
        destruct IH as [os [L Ev]].
        exists ((if Z.eqb (returncode p) 0 then Flashed else Failed (stderr p)) :: os).
        split; [simpl; now rewrite L | cbn [report]; now rewrite Ev].
      * unfold flash_sweep. cbn [for_each]. unfold bind.
        rewrite (flash_one_not_found _ _ _ _ _ E R). reflexivity.
    + rewrite (flash_sweep_cons _ _ _ _ _ _ (flash_one_missing _ partition _ _ E)).
      rewrite outcome_preceded_by, events_preceded_by.
      specialize (IH w). destruct (outcome (flash_sweep directory rest w)); auto.
      destruct IH as [os [L Ev]]. exists (SkippedMissingFile :: os).
      split; [simpl; now rewrite L | cbn [report]; now rewrite Ev].
Qed.

Lemma flash_images_eq (directory : string) (w : W) :
  flash_images directory w =
  preceded_by [Printed (nl ++ "=== Flashing images ==="); Run ["fastboot"; "getvar"; "all"]]
    (let check := host_subprocess_run ["fastboot"; "getvar"; "all"] w in
     if detect_oneplus_n200_fastboot_on (run_on (fst check))
     then flash_sweep directory FLASH_COMMANDS (snd check)
     else (Returned tt, snd check,
           [Printed "[-] Device is no longer detected as OnePlus N200! Aborting."])).
Proof.
  unfold flash_images. rewrite bind_print.
  rewrite (bind_returned _ _ _ _ _ _ (detect_oneplus_n200_fastboot_eq w)).
  rewrite preceded_by_app. simpl app.
  destruct (detect_oneplus_n200_fastboot_on _); reflexivity.
Qed.

(** C1.  Every run of [flash_images] starts with the fastboot identity
    query, so each flash command of the run comes after it.  When the
    identity check answers false, the run is the heading, the query and the
    one line that reports the abort: it returns at once and launches no
    flash command. *)
Theorem flash_images_identity_gate (directory : string) (w : W) :
  (exists rest,
      events (flash_images directory w) =
      Printed (nl ++ "=== Flashing images ===") :: Run ["fastboot"; "getvar"; "all"] :: rest
      /\ filter is_flash_command (events (flash_images directory w)) =
         filter is_flash_command rest)
  /\ (outcome (detect_oneplus_n200_fastboot w) = Returned false ->
      flash_images directory w =
      (Returned tt, world_after (detect_oneplus_n200_fastboot w),
       [ Printed (nl ++ "=== Flashing images ===");
         Run ["fastboot"; "getvar"; "all"];
         Printed "[-] Device is no longer detected as OnePlus N200! Aborting." ])
      /\ filter is_flash_command (events (flash_images directory w)) = []).
Proof.
  rewrite flash_images_eq, detect_oneplus_n200_fastboot_eq. split.
  - rewrite events_preceded_by. eexists. split; reflexivity.
  - unfold outcome, world_after. simpl fst. simpl snd. intros H.
    injection H as H. rewrite H. split; reflexivity.
Qed.

(** C4.  A turn of the sweep whose image file is absent records
    SkippedMissingFile; one whose flash command exits non-zero records
    Failed with the command's standard error; one whose flash command exits
    zero records Flashed.  In each case the sweep then goes on with the
    remaining specs.  A sweep that returns has recorded one outcome per
    spec, in order; the only way it stops early is a launch that raises
    FileNotFoundError. *)
Theorem flash_sweep_best_effort (directory : string) :
  (forall partition img_file rest w,
      host_path_exists (path_join directory img_file) w = false ->
      flash_sweep directory ((partition, img_file) :: rest) w =
      preceded_by (outcome_events directory (partition, img_file) SkippedMissingFile)
                  (flash_sweep directory rest w))
  /\ (forall partition img_file rest w p w1,
      host_path_exists (path_join directory img_file) w = true ->
      host_subprocess_run (flash_cmd partition (path_join directory img_file)) w
      = (Some p, w1) ->
      returncode p <> 0%Z ->
      flash_sweep directory ((partition, img_file) :: rest) w =
      preceded_by (outcome_events directory (partition, img_file) (Failed (stderr p)))
                  (flash_sweep directory rest w1))
  /\ (forall partition img_file rest w p w1,
      host_path_exists (path_join directory img_file) w = true ->
      host_subprocess_run (flash_cmd partition (path_join directory img_file)) w
      = (Some p, w1) ->
      returncode p = 0%Z ->
      flash_sweep directory ((partition, img_file) :: rest) w =
      preceded_by (outcome_events directory (partition, img_file) Flashed)
                  (flash_sweep directory rest w1))
  /\ (forall specs w,
      match outcome (flash_sweep directory specs w) with
      | Returned _ =>
          exists os, length os = length specs
                     /\ events (flash_sweep directory specs w) = report directory specs os
      | Raised e => e = FileNotFoundError
      | StillRunning => False
      end).
Proof.
  repeat split.
  - intros partition img_file rest w H.
    apply flash_sweep_cons. now apply flash_one_missing.
  - intros partition img_file rest w p w1 H R N.
    apply flash_sweep_cons. rewrite (flash_one_launched _ _ _ _ _ _ H R).
    apply Z.eqb_neq in N. now rewrite N.
  - intros partition img_file rest w p w1 H R N.
    apply flash_sweep_cons. rewrite (flash_one_launched _ _ _ _ _ _ H R).
    apply Z.eqb_eq in N. now rewrite N.
  - apply flash_sweep_shape.
Qed.

End SweepFacts.

Section LoopFacts.

Context {W : Type} {host : Host W}.

(** One turn of the loop of [ensure_fastbootd], with its two polls named. *)
Lemma ensure_fastbootd_loop_turn (fuel : nat) (w : W) :
  ensure_fastbootd_loop (S fuel) w =
  let r1 := host_subprocess_run ["fastboot"; "getvar"; "is-userspace"] w in
  let mode := detect_fastboot_mode_on (run_on (fst r1)) in
  let r2 := host_subprocess_run ["fastboot"; "devices"] (snd r1) in
  preceded_by
    [Run ["fastboot"; "getvar"; "is-userspace"]; Run ["fastboot"; "devices"]]
    (if negb (fastboot_device_present_on (run_on (fst r2))) then
       (Returned false, snd r2, [Printed "No fastboot device detected."])
     else if String.eqb mode "fastbootd" then
       (Returned true, snd r2, [Printed "✔ Device is in fastbootd (userspace)."])
     else if String.eqb mode "bootloader" then
       preceded_by
         [ Printed "↻ Device is in bootloader fastboot. Rebooting to fastbootd...";
           Run ["fastboot"; "reboot"; "fastboot"];
           Printed "Waiting 15 seconds for fastbootd...";
           Sleep 15 ]
         (ensure_fastbootd_loop fuel
            (host_sleep 15
               (snd (host_subprocess_run ["fastboot"; "reboot"; "fastboot"] (snd r2)))))
     else
       preceded_by
         [Printed "⚠ Unknown fastboot mode. Retrying in 3s..."; Sleep 3]
         (ensure_fastbootd_loop fuel (host_sleep 3 (snd r2)))).
Proof.
  cbn [ensure_fastbootd_loop].
  rewrite (bind_returned _ _ _ _ _ _ (detect_fastboot_mode_eq w)).
  rewrite (bind_returned _ _ _ _ _ _ (fastboot_device_present_eq _)).
  rewrite preceded_by_app. cbv zeta. simpl app. f_equal.
  destruct (fastboot_device_present_on _); cbn [negb]; [|reflexivity].
  destruct (String.eqb _ "fastbootd"); [reflexivity|].
  destruct (String.eqb _ "bootloader").
  - rewrite bind_print.
    rewrite (bind_returned _ _ _ _ _ _ (run_eq _ _)).
    rewrite bind_print.
    unfold bind at 1, time_sleep.
    destruct (ensure_fastbootd_loop fuel _) as [[r w'] t]. reflexivity.
  - rewrite bind_print. unfold bind at 1, time_sleep.
    destruct (ensure_fastbootd_loop fuel _) as [[r w'] t]. reflexivity.
Qed.

(** With no device at the presence poll, the first turn is the last. *)
Lemma ensure_fastbootd_loop_absent (fuel : nat) (w : W) :
  let poll1 := detect_fastboot_mode w in
  let poll2 := fastboot_device_present (world_after poll1) in
  outcome poll2 = Returned false ->
  ensure_fastbootd_loop (S fuel) w =
  (Returned false, world_after poll2,
   (events poll1 ++ events poll2 ++ [Printed "No fastboot device detected."])%list).
Proof.
  cbv zeta. rewrite detect_fastboot_mode_eq.
  unfold outcome, world_after, events. cbn [fst snd].
  rewrite fastboot_device_present_eq. cbn [fst snd].
  intros H. injection H as H.
  rewrite ensure_fastbootd_loop_turn. cbv zeta. rewrite H. reflexivity.
Qed.

(** C2, as the script has it.  A turn on which the submode is unknown and
    the presence poll reports a device prints the warning, sleeps three
    seconds and goes round again.  A turn on which the presence poll reports
    no device ends the loop at once with false, whatever the submode, and
    without sleeping. *)
Theorem ensure_fastbootd_retries_unknown_only_when_present (fuel : nat) (w : W) :
  let poll1 := detect_fastboot_mode w in
  let poll2 := fastboot_device_present (world_after poll1) in
  (outcome poll1 = Returned "unknown" -> outcome poll2 = Returned true ->
   retries_after_short_delay fuel w)
  /\ (outcome poll2 = Returned false ->
      ensure_fastbootd_loop (S fuel) w =
      (Returned false, world_after poll2,
       (events poll1 ++ events poll2 ++ [Printed "No fastboot device detected."])%list)).
Proof.
  split; [|apply ensure_fastbootd_loop_absent].
  unfold retries_after_short_delay. cbv zeta.
  rewrite detect_fastboot_mode_eq.
  unfold outcome, world_after, events. cbn [fst snd].
  rewrite fastboot_device_present_eq. cbn [fst snd].
  intros H1 H2. injection H1 as H1. injection H2 as H2.
  rewrite ensure_fastbootd_loop_turn. cbv zeta. rewrite H1, H2. cbn [negb].
  change (String.eqb "unknown" "fastbootd") with false.
  change (String.eqb "unknown" "bootloader") with false. cbv iota.
  rewrite preceded_by_app. reflexivity.
Qed.

(** C6.  Where no presence poll ever reports a device ([Inv] holds at the
    start and after every launch, and in every world of [Inv] the presence
    poll answers false), [ensure_fastbootd] returns false, and it does so on
    the first turn of its loop: one submode query, one presence query, one
    line.  The result is the same for every positive fuel, so it owes
    nothing to a bound on the turns. *)
Theorem ensure_fastbootd_no_device_returns_false
        (Inv : W -> Prop) (fuel : nat) (w : W) :
  Inv w ->
  (forall cmd w', Inv w' -> Inv (snd (host_subprocess_run cmd w'))) ->
  (forall w', Inv w' -> outcome (fastboot_device_present w') = Returned false) ->
  outcome (ensure_fastbootd (S fuel) w) = Returned false
  /\ events (ensure_fastbootd (S fuel) w) =
     [ Printed (nl ++ "=== Ensuring fastbootd ===");
       Run ["fastboot"; "getvar"; "is-userspace"];
       Run ["fastboot"; "devices"];
       Printed "No fastboot device detected." ]
  /\ ensure_fastbootd (S fuel) w = ensure_fastbootd 1 w.
Proof.
  intros I0 Pres Never.
  assert (A : forall n, ensure_fastbootd (S n) w =
                        (Returned false,
                         world_after (fastboot_device_present
                                        (world_after (detect_fastboot_mode w))),
                         [ Printed (nl ++ "=== Ensuring fastbootd ===");
                           Run ["fastboot"; "getvar"; "is-userspace"];
                           Run ["fastboot"; "devices"];
                           Printed "No fastboot device detected." ])).
  { intros n. unfold ensure_fastbootd. rewrite bind_print.
    rewrite ensure_fastbootd_loop_absent.
    - rewrite detect_fastboot_mode_eq.
      unfold world_after, events. cbn [fst snd].
      rewrite fastboot_device_present_eq. reflexivity.
    - apply Never. rewrite detect_fastboot_mode_eq. unfold world_after. cbn [fst snd].
      now apply Pres. }
  rewrite !A. repeat split.
Qed.

Lemma flash_sweep_one_missing (Inv : W -> Prop) (directory missing : string)
      (specs : list (string * string)) (w : W) :
  (forall partition path w',
      Inv w' -> Inv (snd (host_subprocess_run (flash_cmd partition path) w'))) ->
  (forall w' partition img_file,
      Inv w' -> In (partition, img_file) specs ->
      host_path_exists (path_join directory img_file) w'
      = negb (String.eqb img_file missing)) ->
  (forall w' partition path,
      Inv w' ->
      exists p, fst (host_subprocess_run (flash_cmd partition path) w') = Some p
                /\ returncode p = 0%Z) ->
  Inv w ->
  outcome (flash_sweep directory specs w) = Returned tt
  /\ events (flash_sweep directory specs w) =
     report directory specs
            (map (fun spec => if String.eqb (snd spec) missing
                              then SkippedMissingFile else Flashed) specs).
Proof.
  intros Pres Files Zero. revert w.
  induction specs as [|[partition img_file] rest IH]; intros w I0.
  - split; reflexivity.
  - assert (Files' : forall w' partition img_file,
               Inv w' -> In (partition, img_file) rest ->
               host_path_exists (path_join directory img_file) w'
               = negb (String.eqb img_file missing)).
    { intros w' q i Hi Hin. apply (Files w' q i Hi). now right. }
    specialize (IH Files').
    pose proof (Files w partition img_file I0 (or_introl eq_refl)) as E.
    cbn [map snd report]. destruct (String.eqb img_file missing); cbn [negb] in E.
    + rewrite (flash_sweep_cons _ _ _ _ _ _ (flash_one_missing _ partition _ _ E)).
      rewrite outcome_preceded_by, events_preceded_by.
      destruct (IH w I0) as [O Ev]. now rewrite O, Ev.
    + destruct (Zero w partition (path_join directory img_file) I0) as [p [R Z0]].
      pose proof (Pres partition (path_join directory img_file) w I0) as I1.
      destruct (host_subprocess_run (flash_cmd partition (path_join directory img_file)) w)
        as [o w1] eqn:R'. cbn [fst snd] in R, I1. subst o.
      rewrite (flash_sweep_cons _ _ _ _ _ _ (flash_one_launched _ _ _ _ _ _ E R')).
      rewrite outcome_preceded_by, events_preceded_by.
      destruct (IH w1 I1) as [O Ev]. rewrite O, Ev, Z0. split; reflexivity.
Qed.

(** C5.  With the eighteen specs of [FLASH_COMMANDS], a directory that
    holds every image but tz.img, an identity check that passes and flash
    commands that exit with zero ([Inv] holds of the worlds the sweep goes
    through), [flash_images] returns and its log is the
    heading, the identity query, then one outcome per spec in the order of
    the list: Flashed for the first fourteen, SkippedMissingFile for tz (the
    fifteenth), Flashed for the last three. *)
Theorem flash_images_only_tz_missing (Inv : W -> Prop) (directory : string) (w : W) :
  outcome (detect_oneplus_n200_fastboot w) = Returned true ->
  Inv (world_after (detect_oneplus_n200_fastboot w)) ->
  (forall partition path w',
      Inv w' -> Inv (snd (host_subprocess_run (flash_cmd partition path) w'))) ->
  (forall w' partition img_file,
      Inv w' -> In (partition, img_file) FLASH_COMMANDS ->
      host_path_exists (path_join directory img_file) w'
      = negb (String.eqb img_file "tz.img")) ->
  (forall w' partition path,
      Inv w' ->
      exists p, fst (host_subprocess_run (flash_cmd partition path) w') = Some p
                /\ returncode p = 0%Z) ->
  length FLASH_COMMANDS = 18
  /\ nth_error FLASH_COMMANDS 14 = Some ("tz", "tz.img")
  /\ outcome (flash_images directory w) = Returned tt
  /\ events (flash_images directory w) =
     ([ Printed (nl ++ "=== Flashing images ===");
        Run ["fastboot"; "getvar"; "all"] ]
      ++ report directory FLASH_COMMANDS
                (repeat Flashed 14 ++ [SkippedMissingFile] ++ repeat Flashed 3))%list.
Proof.
  intros Id I0 Pres Files Zero.
  split; [reflexivity|]. split; [reflexivity|].
  rewrite flash_images_eq, outcome_preceded_by, events_preceded_by. cbv zeta.
  rewrite detect_oneplus_n200_fastboot_eq in Id, I0.
  unfold outcome, world_after in Id, I0. cbn [fst snd] in Id, I0.
  injection Id as Id. rewrite Id.
  destruct (flash_sweep_one_missing Inv directory "tz.img" FLASH_COMMANDS _
              Pres Files Zero I0) as [O Ev].
  rewrite O, Ev. split; reflexivity.
Qed.

End LoopFacts.

(* ================================================================= *)
(** ** The script on the scripted machine *)

(** C1 at a machine with nothing attached: the identity check fails and no
    flash command is launched. *)
Lemma flash_images_identity_gate_witness :
  outcome (detect_oneplus_n200_fastboot (boot nothing_attached [])) = Returned false
  /\ filter is_flash_command
            (events (flash_images "/tmp/x" (boot nothing_attached
                                                 (images_except "/tmp/x" "")))) = [].
Proof.
  split; [reflexivity|].
  apply (proj2 (flash_images_identity_gate
                  "/tmp/x" (boot nothing_attached (images_except "/tmp/x" "")))).
  reflexivity.
Defined.

(** C2 as stated fails: with nothing attached the first turn has an unknown
    submode and no device, and the loop returns at once instead of waiting. *)
Lemma retry_on_unknown_or_absent_fails : ~ retry_on_unknown_or_absent.
Proof.
  intros H.
  specialize (H machine machine_host 1 (boot nothing_attached [])).
  cbv zeta in H.
  assert (A : outcome (detect_fastboot_mode (boot nothing_attached [])) = Returned "unknown"
              \/ outcome (fastboot_device_present
                            (world_after (detect_fastboot_mode (boot nothing_attached []))))
                 = Returned false).
  { right. reflexivity. }
  specialize (H A). unfold retries_after_short_delay in H.
  apply (f_equal (fun r => length (events r))) in H.
  vm_compute in H. discriminate H.
Qed.

(** C2 as amended, at a fastboot device that does not report its submode. *)
Lemma ensure_fastbootd_retries_unknown_only_when_present_witness :
  outcome (detect_fastboot_mode (boot mode_not_reported [])) = Returned "unknown"
  /\ outcome (fastboot_device_present
                (world_after (detect_fastboot_mode (boot mode_not_reported []))))
     = Returned true
  /\ retries_after_short_delay 2 (boot mode_not_reported []).
Proof.
  split; [reflexivity|]. split; [reflexivity|].
  apply (proj1 (ensure_fastbootd_retries_unknown_only_when_present
                  2 (boot mode_not_reported []))); reflexivity.
Defined.

(** C4 at a device that refuses a flash: the failure is recorded and the
    sweep goes on with the next spec. *)
Lemma flash_sweep_best_effort_witness :
  let w := boot flash_rejected (images_except "/tmp/x" "tz.img") in
  let reply := host_subprocess_run (flash_cmd "abl" "/tmp/x/abl.img") w in
  host_path_exists (path_join "/tmp/x" "abl.img") w = true
  /\ flash_sweep "/tmp/x" [("abl", "abl.img"); ("tz", "tz.img"); ("xbl", "xbl.img")] w =
     preceded_by
       (outcome_events "/tmp/x" ("abl", "abl.img")
                       (Failed "FAILED (remote: partition is write protected)"))
       (flash_sweep "/tmp/x" [("tz", "tz.img"); ("xbl", "xbl.img")] (snd reply)).
Proof.
  split; [reflexivity|].
  apply (proj1 (proj2 (flash_sweep_best_effort "/tmp/x"))
           "abl" "abl.img" [("tz", "tz.img"); ("xbl", "xbl.img")]
           (boot flash_rejected (images_except "/tmp/x" "tz.img"))
           (mkCompleted 1 "" "FAILED (remote: partition is write protected)")).
  - reflexivity.
  - reflexivity.
  - discriminate.
Defined.

(** C5 at that machine. *)
Lemma flash_images_only_tz_missing_witness :
  events (flash_images "/tmp/x" (boot n200_in_fastbootd (images_except "/tmp/x" "tz.img"))) =
  ([ Printed (nl ++ "=== Flashing images ===");
     Run ["fastboot"; "getvar"; "all"] ]
   ++ report "/tmp/x" FLASH_COMMANDS
             (repeat Flashed 14 ++ [SkippedMissingFile] ++ repeat Flashed 3))%list.
Proof.
  apply (flash_images_only_tz_missing
           tz_missing_world "/tmp/x"
           (boot n200_in_fastbootd (images_except "/tmp/x" "tz.img"))).
  - reflexivity.
  - split; reflexivity.
  - intros partition path m [A F]. split; [exact A | exact F].
  - intros m partition img_file [A F] Hin.
    change (host_path_exists (path_join "/tmp/x" img_file) m)
      with (has_file (files m) (path_join "/tmp/x" img_file)).
    rewrite F. simpl in Hin.
    repeat (destruct Hin as [Hin | Hin];
            [injection Hin as <- <-; vm_compute; reflexivity|]).
    contradiction.
  - intros m partition path [A F].
    exists (mkCompleted 0 "" ""). split; [|reflexivity].
    simpl. rewrite A. reflexivity.
Defined.

(** C6 at a machine with nothing attached. *)
Lemma ensure_fastbootd_no_device_returns_false_witness :
  outcome (ensure_fastbootd 7 (boot nothing_attached [])) = Returned false.
Proof.
  apply (ensure_fastbootd_no_device_returns_false
           nothing_attached_world 6 (boot nothing_attached [])).
  - reflexivity.
  - intros cmd m A. exact A.
  - intros m A. rewrite fastboot_device_present_eq.
    unfold outcome. simpl. rewrite A. reflexivity.
Defined.

(** C8 as stated fails: at a launch whose output is not text the bridge
    check raises UnicodeDecodeError. *)
Lemma identity_checks_never_throw_fails : ~ identity_checks_never_throw.
Proof.
  intros H. destruct (H OutputNotText) as [[b Hb] _]. discriminate Hb.
Qed.

(** C8 as amended, at a launch whose output is not text. *)
Lemma identity_checks_raise_only_what_run_lets_through_witness :
  subprocess_run_at OutputNotText = Raised UnicodeDecodeError
  /\ UnicodeDecodeError <> FileNotFoundError
  /\ detect_oneplus_n200_fastboot_at OutputNotText = Raised UnicodeDecodeError.
Proof.
  assert (A : subprocess_run_at OutputNotText = Raised UnicodeDecodeError) by reflexivity.
  assert (N : UnicodeDecodeError <> FileNotFoundError) by discriminate.
  split; [exact A|]. split; [exact N|].
  destruct (@identity_checks_raise_only_what_run_lets_through machine machine_host)
    as [_ [_ [_ [_ [_ [_ [_ T]]]]]]].
  exact (proj2 (T OutputNotText UnicodeDecodeError) (conj A N)).
Defined.

(** C9 at a fastboot that only complains on its standard error. *)
Lemma fastboot_device_present_iff_any_output_witness :
  strip "< waiting for any device >" <> ""
  /\ fastboot_device_present_on
       (run_on (completed 1 "" "< waiting for any device >")) = true.
Proof.
  assert (N : strip "< waiting for any device >" <> "") by (vm_compute; discriminate).
  split; [exact N|].
  exact (proj2 (proj2 (proj2
           (@fastboot_device_present_iff_any_output machine machine_host)))
           1%Z "" "< waiting for any device >" N).
Defined.

(** C10 at a listing whose only device is unauthorized. *)
Lemma adb_device_present_iff_later_line_ends_with_device_witness :
  adb_device_present_on
    (fst (run_on (completed 0 ("List of devices attached" ++ nl
                               ++ "8f2a91c3" ++ tab ++ "unauthorized" ++ nl) "")))
  = false.
Proof.
  apply (proj2 (proj2
           (@adb_device_present_iff_later_line_ends_with_device machine machine_host))
           (mkCompleted 0 ("List of devices attached" ++ nl
                           ++ "8f2a91c3" ++ tab ++ "unauthorized" ++ nl) "")).
  intros line Hin. vm_compute in Hin.
  destruct Hin as [<- | []]. left. exists ("8f2a91c3" ++ tab). reflexivity.
Defined.

(** C3.  [main] drops the answer of [ensure_fastbootd].  With a device that
    misses one presence poll, [ensure_fastbootd] returns false, and [main]
    still downloads the eighteen files, launches the eighteen flash commands
    and reboots the device.  With a device that never comes up in fastboot
    after the bridge reboot, [main] still downloads and still sends the
    final reboot. *)
Theorem main_goes_on_after_failed_transition :
  (let start := boot usb_dropout [] in
   let at_call := world_after (fastboot_device_present
                                 (world_after (adb_device_present start))) in
   let later := after_first is_failed_transition (events (main 3 start)) in
   outcome (ensure_fastbootd 3 at_call) = Returned false
   /\ outcome (main 3 start) = Returned tt
   /\ length (filter is_download later) = 18
   /\ length (filter is_flash_command later) = 18
   /\ length (filter is_final_reboot later) = 1)
  /\ (let start := boot bridge_then_gone [] in
      let later := after_first is_failed_transition (events (main 3 start)) in
      outcome (main 3 start) = Returned tt
      /\ length (filter is_download later) = 18
      /\ length (filter is_flash_command later) = 0
      /\ length (filter is_final_reboot later) = 1).
Proof. vm_compute. repeat split. Qed.

(** C7.  Only the launches made through [run] turn a missing program into
    a value.  [extract_zst_files] and [flash_images] launch directly: without
    zstd installed [main] ends in FileNotFoundError at the first extraction,
    and a fastboot that is no longer found after the identity check makes
    [flash_images] end in FileNotFoundError at the first flash command. *)
Theorem missing_program_is_raised :
  outcome (main 3 (boot no_zstd [])) = Raised FileNotFoundError
  /\ outcome (flash_images "/tmp/x" (boot fastboot_vanishes (images_except "/tmp/x" "")))
     = Raised FileNotFoundError
  /\ events (flash_images "/tmp/x" (boot fastboot_vanishes (images_except "/tmp/x" "")))
     = [ Printed (nl ++ "=== Flashing images ===");
         Run ["fastboot"; "getvar"; "all"];
         Printed "[*] Flashing abl -> abl.img";
         Run ["fastboot"; "flash"; "--slot=all"; "abl"; "/tmp/x/abl.img"] ].
Proof. vm_compute. repeat split. Qed.

(* ================================================================= *)
(** ** Further facts: the mode query and the transition loop *)

Section ModeFacts.

Context {W : Type} {host : Host W}.

(** X1.  [detect_fastboot_mode] answers one of three words.  It answers
    fastbootd exactly when the text (standard output followed by standard
    error, as [run] returns them) holds is-userspace: yes in any letter
    case; bootloader exactly when it does not but holds is-userspace: no;
    unknown otherwise, and in particular when the program is missing.  A
    text with both readings counts as fastbootd. *)
Theorem detect_fastboot_mode_classifies (r : option string * option string) :
  let combined := or_empty (fst r) ++ or_empty (snd r) in
  (detect_fastboot_mode_on r = "fastbootd"
   \/ detect_fastboot_mode_on r = "bootloader"
   \/ detect_fastboot_mode_on r = "unknown")
  /\ (detect_fastboot_mode_on r = "fastbootd" <->
      has_token_nocase "is-userspace: yes" combined)
  /\ (detect_fastboot_mode_on r = "bootloader" <->
      ~ has_token_nocase "is-userspace: yes" combined
      /\ has_token_nocase "is-userspace: no" combined)
  /\ detect_fastboot_mode_on (run_on None) = "unknown".
Proof.
  cbv zeta. unfold detect_fastboot_mode_on.
  rewrite <- !contains_lower_spec.
  destruct (contains "is-userspace: yes" _) eqn:Y;
    destruct (contains "is-userspace: no" _) eqn:N;
    repeat split; auto; try discriminate; try tauto;
    try (intros [? ?]; congruence); try (intros ?; congruence).
Qed.

End ModeFacts.

Section LoopMoreFacts.

Context {W : Type} {host : Host W}.

Lemma launches_app (a b : list event) : launches (a ++ b) = (launches a ++ launches b)%list.
Proof. apply flat_map_app. Qed.

Lemma sleeps_app (a b : list event) : sleeps (a ++ b) = (sleeps a ++ sleeps b)%list.
Proof. apply flat_map_app. Qed.

Lemma fetches_app (a b : list event) : fetches (a ++ b) = (fetches a ++ fetches b)%list.
Proof. apply flat_map_app. Qed.

Lemma writes_app (a b : list event) : writes (a ++ b) = (writes a ++ writes b)%list.
Proof. apply flat_map_app. Qed.

Lemma removals_app (a b : list event) : removals (a ++ b) = (removals a ++ removals b)%list.
Proof. apply flat_map_app. Qed.

Lemma ensure_fastbootd_eq (fuel : nat) (w : W) :
  ensure_fastbootd fuel w =
  preceded_by [Printed (nl ++ "=== Ensuring fastbootd ===")] (ensure_fastbootd_loop fuel w).
Proof. unfold ensure_fastbootd. now rewrite bind_print. Qed.

Lemma ensure_fastbootd_loop_answer (fuel : nat) :
  forall (w : W) (b : bool),
    outcome (ensure_fastbootd_loop fuel w) = Returned b ->
    exists w0 pre,
      let r1 := host_subprocess_run ["fastboot"; "getvar"; "is-userspace"] w0 in
      let r2 := host_subprocess_run ["fastboot"; "devices"] (snd r1) in
      world_after (ensure_fastbootd_loop fuel w) = snd r2
      /\ fastboot_device_present_on (run_on (fst r2)) = b
      /\ (b = true -> detect_fastboot_mode_on (run_on (fst r1)) = "fastbootd")
      /\ events (ensure_fastbootd_loop fuel w) =
         (pre ++ [ Run ["fastboot"; "getvar"; "is-userspace"];
                   Run ["fastboot"; "devices"];
                   Printed (if b then "✔ Device is in fastbootd (userspace)."
                            else "No fastboot device detected.") ])%list.
Proof.
  induction fuel as [|fuel IH]; intros w b H; [discriminate H|].
  rewrite ensure_fastbootd_loop_turn in *. cbv zeta in *.
  destruct (fastboot_device_present_on _) eqn:P; cbn [negb] in *.
  - destruct (String.eqb _ "fastbootd") eqn:M1.
    + injection H as <-. exists w, []. cbv zeta.
      apply String.eqb_eq in M1. repeat split; auto.
    + destruct (String.eqb _ "bootloader") eqn:M2;
        rewrite preceded_by_app in *;
        rewrite outcome_preceded_by in H;
        destruct (IH _ _ H) as [w0 [pre [Hw [Hp [Hm He]]]]];
        rewrite world_preceded_by, events_preceded_by, He, app_assoc;
        match goal with
        | |- context [((?t ++ pre) ++ _)%list] => exists w0, (t ++ pre)%list
        end; cbv zeta; repeat split; auto.
  - injection H as <-. exists w, []. cbv zeta. repeat split; auto. discriminate.
Qed.

(** X2.  What the answer of [ensure_fastbootd] means.  When it returns,
    its last turn polled the submode and then the presence, and the answer
    is that of the presence poll.  It returns true only if that last turn
    also read the submode as fastbootd; it returns false only if that last
    presence poll found no device.  The log ends with the two polls and the
    matching line. *)
Theorem ensure_fastbootd_answer_reflects_last_poll (fuel : nat) (w : W) (b : bool) :
  outcome (ensure_fastbootd fuel w) = Returned b ->
  exists w0 pre,
    let r1 := host_subprocess_run ["fastboot"; "getvar"; "is-userspace"] w0 in
    let r2 := host_subprocess_run ["fastboot"; "devices"] (snd r1) in
    world_after (ensure_fastbootd fuel w) = snd r2
    /\ fastboot_device_present_on (run_on (fst r2)) = b
    /\ (b = true -> detect_fastboot_mode_on (run_on (fst r1)) = "fastbootd")
    /\ events (ensure_fastbootd fuel w) =
       (pre ++ [ Run ["fastboot"; "getvar"; "is-userspace"];
                 Run ["fastboot"; "devices"];
                 Printed (if b then "✔ Device is in fastbootd (userspace)."
                          else "No fastboot device detected.") ])%list.
Proof.
  rewrite ensure_fastbootd_eq, outcome_preceded_by, world_preceded_by, events_preceded_by.
  intros H. destruct (ensure_fastbootd_loop_answer fuel w b H) as [w0 [pre [Hw [Hp [Hm He]]]]].
  exists w0, ([Printed (nl ++ "=== Ensuring fastbootd ===")] ++ pre)%list.
  cbv zeta. rewrite He, <- app_assoc. repeat split; auto.
Qed.

(** X3.  Without the fastboot program.  When neither the submode query nor
    the presence query finds the program, [ensure_fastbootd] returns false on
    its first turn: the missing program reads as an unknown submode and as no
    device, and the log is the heading, the two launches and the line
    No fastboot device detected. *)
Theorem ensure_fastbootd_without_fastboot_program (fuel : nat) (w : W) :
  let r1 := host_subprocess_run ["fastboot"; "getvar"; "is-userspace"] w in
  let r2 := host_subprocess_run ["fastboot"; "devices"] (snd r1) in
  fst r1 = None ->
  fst r2 = None ->
  ensure_fastbootd (S fuel) w =
  (Returned false, snd r2,
   [ Printed (nl ++ "=== Ensuring fastbootd ===");
     Run ["fastboot"; "getvar"; "is-userspace"];
     Run ["fastboot"; "devices"];
     Printed "No fastboot device detected." ]).
Proof.
  cbv zeta. intros H1 H2.
  rewrite ensure_fastbootd_eq, ensure_fastbootd_loop_turn. cbv zeta.
  rewrite H2. reflexivity.
Qed.

(** X4.  A turn of the loop of [ensure_fastbootd] on which the presence poll
    reports a device and the submode reads bootloader sends
    fastboot reboot fastboot, sleeps fifteen seconds and goes round again:
    one reboot command per such turn. *)
Theorem ensure_fastbootd_reboots_from_bootloader (fuel : nat) (w : W) :
  let poll1 := detect_fastboot_mode w in
  let poll2 := fastboot_device_present (world_after poll1) in
  outcome poll1 = Returned "bootloader" ->
  outcome poll2 = Returned true ->
  ensure_fastbootd_loop (S fuel) w =
  preceded_by
    (events poll1 ++ events poll2
     ++ [ Printed "↻ Device is in bootloader fastboot. Rebooting to fastbootd...";
          Run ["fastboot"; "reboot"; "fastboot"];
          Printed "Waiting 15 seconds for fastbootd...";
          Sleep 15 ])%list
    (ensure_fastbootd_loop
       fuel
       (host_sleep 15 (snd (host_subprocess_run ["fastboot"; "reboot"; "fastboot"]
                                                (world_after poll2))))).
Proof.
  cbv zeta. rewrite detect_fastboot_mode_eq.
  unfold outcome, world_after, events. cbn [fst snd].
  rewrite fastboot_device_present_eq. cbn [fst snd].
  intros H1 H2. injection H1 as H1. injection H2 as H2.
  rewrite ensure_fastbootd_loop_turn. cbv zeta. rewrite H1, H2. cbn [negb].
  change (String.eqb "bootloader" "fastbootd") with false.
  change (String.eqb "bootloader" "bootloader") with true. cbv iota.
  rewrite preceded_by_app. reflexivity.
Qed.

Lemma ensure_fastbootd_loop_accounts (fuel : nat) :
  forall w : W,
    let t := events (ensure_fastbootd_loop fuel w) in
    Forall (fun cmd => cmd = ["fastboot"; "getvar"; "is-userspace"]
                       \/ cmd = ["fastboot"; "devices"]
                       \/ cmd = ["fastboot"; "reboot"; "fastboot"]) (launches t)
    /\ Forall (fun n => n = 3 \/ n = 15) (sleeps t)
    /\ length (filter (fun cmd => cmd_is cmd ["fastboot"; "reboot"; "fastboot"]) (launches t))
       = length (filter (Nat.eqb 15) (sleeps t))
    /\ length (filter (fun cmd => cmd_is cmd ["fastboot"; "getvar"; "is-userspace"]) (launches t))
       = length (filter (fun cmd => cmd_is cmd ["fastboot"; "devices"]) (launches t))
    /\ fetches t = [] /\ writes t = [] /\ removals t = [].
Proof.
  induction fuel as [|fuel IH]; intros w; cbv zeta.
  - simpl. repeat split; constructor.
  - rewrite ensure_fastbootd_loop_turn. cbv zeta.
    destruct (fastboot_device_present_on _); cbn [negb].
    + destruct (String.eqb _ "fastbootd").
      * simpl. repeat split; forall_listed.
      * destruct (String.eqb _ "bootloader"); rewrite preceded_by_app;
          rewrite events_preceded_by;
          match goal with |- context [ensure_fastbootd_loop fuel ?w'] =>
            destruct (IH w') as [L [S [R [P [F [Wr Rm]]]]]] end;
          rewrite launches_app, sleeps_app, fetches_app, writes_app, removals_app,
            !filter_app, !length_app, F, Wr, Rm, R, P;
          (split; [apply Forall_app; split; [simpl; forall_listed | exact L]|]);
          (split; [apply Forall_app; split; [simpl; forall_listed | exact S]|]);
          repeat split.
    + simpl. repeat split; forall_listed.
Qed.

(** X5.  What a run of [ensure_fastbootd] can do.  It launches only the
    submode query, the presence query and the reboot to userspace fastboot;
    it polls the submode as often as the presence; it sleeps only for three
    or fifteen seconds, fifteen exactly once per reboot command; it fetches,
    writes and removes nothing. *)
Theorem ensure_fastbootd_accounts (fuel : nat) (w : W) :
  let t := events (ensure_fastbootd fuel w) in
  Forall (fun cmd => cmd = ["fastboot"; "getvar"; "is-userspace"]
                     \/ cmd = ["fastboot"; "devices"]
                     \/ cmd = ["fastboot"; "reboot"; "fastboot"]) (launches t)
  /\ Forall (fun n => n = 3 \/ n = 15) (sleeps t)
  /\ length (filter (fun cmd => cmd_is cmd ["fastboot"; "reboot"; "fastboot"]) (launches t))
     = length (filter (Nat.eqb 15) (sleeps t))
  /\ length (filter (fun cmd => cmd_is cmd ["fastboot"; "getvar"; "is-userspace"]) (launches t))
     = length (filter (fun cmd => cmd_is cmd ["fastboot"; "devices"]) (launches t))
  /\ fetches t = [] /\ writes t = [] /\ removals t = [].
Proof.
  cbv zeta. rewrite ensure_fastbootd_eq, events_preceded_by.
  exact (ensure_fastbootd_loop_accounts fuel w).
Qed.

End LoopMoreFacts.

(* ================================================================= *)
(** ** Further facts: download, extraction and the flash list *)

Section TransferFacts.

Context {W : Type} {host : Host W}.

Lemma bind_raised {A B} (m : M A) (k : A -> M B) (w w1 : W) (e : exn) (t1 : list event) :
  m w = (Raised e, w1, t1) -> bind m k w = (Raised e, w1, t1).
Proof. intros H. unfold bind. now rewrite H. Qed.

Lemma for_each_cons {A} (body : A -> M unit) (x : A) (xs : list A)
      (w w1 : W) (t : list event) :
  body x w = (Returned tt, w1, t) ->
  for_each (x :: xs) body w = preceded_by t (for_each xs body w1).
Proof.
  intros H. cbn [for_each].
  exact (bind_returned (body x) (fun _ => for_each xs body) w w1 tt t H).
Qed.

Lemma for_each_raised {A} (body : A -> M unit) (x : A) (xs : list A)
      (w w1 : W) (e : exn) (t : list event) :
  body x w = (Raised e, w1, t) ->
  for_each (x :: xs) body w = (Raised e, w1, t).
Proof. intros H. cbn [for_each]. now apply bind_raised. Qed.

Lemma preceded_by_nil {A} (r : result A * W * list event) : preceded_by [] r = r.
Proof. now destruct r as [[a w] t]. Qed.

Lemma subseq_refl {A} (l : list A) : subseq l l.
Proof. induction l; [apply subseq_nil | now apply subseq_keep]. Qed.

Lemma subseq_nil_l {A} (l : list A) : subseq [] l.
Proof. induction l; [apply subseq_nil | now apply subseq_skip]. Qed.

Lemma subseq_length {A} (l m : list A) : subseq l m -> length l <= length m.
Proof. induction 1; simpl; lia. Qed.

(** One turn of the loop of [download_files]. *)
Lemma download_one_eq (tmp_dir filename : string) (w : W) :
  download_one tmp_dir filename w =
  if host_path_exists (path_join tmp_dir filename) w then (Returned tt, w, [])
  else
    let reply := host_requests_get (BASE_URL ++ filename) w in
    if Z.eqb (fst (fst reply)) 200 then
      (Returned tt,
       host_write_file (path_join tmp_dir filename) (snd (fst reply)) (snd reply),
       [ Printed ("[*] Downloading " ++ filename ++ "...");
         HttpGet (BASE_URL ++ filename);
         WriteFile (path_join tmp_dir filename);
         Printed ("[+] Downloaded " ++ filename) ])
    else
      (Returned tt, snd reply,
       [ Printed ("[*] Downloading " ++ filename ++ "...");
         HttpGet (BASE_URL ++ filename);
         Printed ("[-] Failed to download " ++ filename ++ ": HTTP "
                  ++ str_of_Z (fst (fst reply))) ]).
Proof.
  unfold download_one, bind, os_path_exists, requests_get, write_file, print, ret.
  destruct (host_path_exists _ w); [reflexivity|].
  destruct (host_requests_get _ w) as [[status chunks] w1]. cbn [fst snd].
  destruct (Z.eqb status 200); reflexivity.
Qed.

Lemma download_files_eq (file_list : list string) (w : W) :
  download_files file_list w =
  let made := host_mkdtemp "oplus_download_" w in
  let loop := for_each file_list (download_one (fst made)) (snd made) in
  preceded_by
    [ Mkdtemp "oplus_download_";
      Printed ("[+] Temporary download directory: " ++ fst made) ]
    (match outcome loop with
     | Returned _ => (Returned (fst made), world_after loop, events loop)
     | Raised e => (Raised e, world_after loop, events loop)
     | StillRunning => (StillRunning, world_after loop, events loop)
     end).
Proof.
  unfold download_files, bind at 1, tempfile_mkdtemp.
  destruct (host_mkdtemp _ w) as [tmp w1]. cbv zeta. cbn [fst snd].
  rewrite bind_print. unfold bind at 1.
  change (for_each file_list _ w1) with (for_each file_list (download_one tmp) w1).
  destruct (for_each file_list (download_one tmp) w1) as [[[u|e|] w2] t];
    unfold ret, preceded_by, outcome, world_after, events; cbn [fst snd];
    rewrite ?app_nil_r; reflexivity.
Qed.

Lemma download_loop_accounts (tmp_dir : string) (file_list : list string) :
  forall w : W,
    let r := for_each file_list (download_one tmp_dir) w in
    outcome r = Returned tt
    /\ subseq (fetches (events r)) (map (fun f => BASE_URL ++ f) file_list)
    /\ subseq (writes (events r)) (map (path_join tmp_dir) file_list)
    /\ length (writes (events r)) <= length (fetches (events r))
    /\ launches (events r) = [] /\ removals (events r) = [] /\ sleeps (events r) = [].
Proof.
  induction file_list as [|f rest IH]; intros w; cbv zeta.
  - simpl. repeat split; constructor.
  - pose proof (download_one_eq tmp_dir f w) as E. cbv zeta in E.
    destruct (host_path_exists _ w).
    + rewrite (for_each_cons _ _ _ _ _ _ E), preceded_by_nil.
      destruct (IH w) as [O [F [Wr [L [R [Rm S]]]]]].
      repeat split; auto; cbn [map]; now apply subseq_skip.
    + destruct (Z.eqb _ 200);
        rewrite (for_each_cons _ _ _ _ _ _ E);
        rewrite outcome_preceded_by, events_preceded_by;
        match goal with |- context [for_each rest _ ?w'] =>
          destruct (IH w') as [O [F [Wr [L [R [Rm S]]]]]] end;
        rewrite fetches_app, writes_app, launches_app, removals_app, sleeps_app,
          R, Rm, S;
        cbn [fetches writes launches removals sleeps flat_map app map length];
        repeat split; auto using subseq_skip, subseq_keep; lia.
Qed.

Lemma download_files_accounts (file_list : list string) (w : W) :
  let tmp_dir := fst (host_mkdtemp "oplus_download_" w) in
  let t := events (download_files file_list w) in
  outcome (download_files file_list w) = Returned tmp_dir
  /\ subseq (fetches t) (map (fun f => BASE_URL ++ f) file_list)
  /\ subseq (writes t) (map (path_join tmp_dir) file_list)
  /\ length (writes t) <= length (fetches t)
  /\ launches t = [] /\ removals t = [] /\ sleeps t = [].
Proof.
  cbv zeta. rewrite download_files_eq. cbv zeta.
  destruct (download_loop_accounts
              (fst (host_mkdtemp "oplus_download_" w)) file_list
              (snd (host_mkdtemp "oplus_download_" w)))
    as [O [F [Wr [L [R [Rm S]]]]]].
  cbv zeta in *. rewrite O.
  rewrite outcome_preceded_by, events_preceded_by.
  unfold outcome at 1, events at 1 3 5 7 9 11 13. cbn [fst snd].
  rewrite fetches_app, writes_app, launches_app, removals_app, sleeps_app.
  simpl. repeat split; auto.
Qed.

(** X7.  What [download_files] asks for.  If it returns, it returns the
    directory [mkdtemp] made.  It launches no program, removes nothing and
    never sleeps.  It requests listed files only, each at most once and in
    the order of the list, at BASE_URL followed by the file name; it writes
    only at the paths [os.path.join] gives for that directory and the listed
    names, in the order of the list, and never more files than it
    requested. *)
Theorem download_files_requests_listed_files_only (file_list : list string) (w : W) :
  let tmp_dir := fst (host_mkdtemp "oplus_download_" w) in
  let t := events (download_files file_list w) in
  (forall d, outcome (download_files file_list w) = Returned d -> d = tmp_dir)
  /\ subseq (fetches t) (map (fun f => BASE_URL ++ f) file_list)
  /\ subseq (writes t) (map (path_join tmp_dir) file_list)
  /\ length (writes t) <= length (fetches t)
  /\ launches t = [] /\ removals t = [] /\ sleeps t = [].
Proof.
  cbv zeta.
  destruct (download_files_accounts file_list w) as [O H].
  cbv zeta in O, H. split; [|exact H].
  intros d E. rewrite O in E. now injection E as <-.
Qed.

(** X8.  One turn of the download loop.  A file that is already in the
    directory is passed over without a request, and the loop goes on with
    the remaining files.  Otherwise exactly one GET is sent.  An answer other
    than 200 writes nothing, logs the status, and the loop goes on with the
    remaining files.  An answer 200 is followed at once by the write of the
    destination path. *)
Theorem download_turn_cases (tmp_dir filename : string) (rest : list string) (w : W) :
  let dest_path := path_join tmp_dir filename in
  let reply := host_requests_get (BASE_URL ++ filename) w in
  (host_path_exists dest_path w = true ->
   for_each (filename :: rest) (download_one tmp_dir) w =
   for_each rest (download_one tmp_dir) w)
  /\ (host_path_exists dest_path w = false -> fst (fst reply) <> 200%Z ->
      for_each (filename :: rest) (download_one tmp_dir) w =
      preceded_by
        [ Printed ("[*] Downloading " ++ filename ++ "...");
          HttpGet (BASE_URL ++ filename);
          Printed ("[-] Failed to download " ++ filename ++ ": HTTP "
                   ++ str_of_Z (fst (fst reply))) ]
        (for_each rest (download_one tmp_dir) (snd reply)))
  /\ (host_path_exists dest_path w = false -> fst (fst reply) = 200%Z ->
      exists later,
        events (for_each (filename :: rest) (download_one tmp_dir) w) =
        ([ Printed ("[*] Downloading " ++ filename ++ "...");
           HttpGet (BASE_URL ++ filename);
           WriteFile dest_path ] ++ later)%list).
Proof.
  cbv zeta. pose proof (download_one_eq tmp_dir filename w) as E. cbv zeta in E.
  repeat split.
  - intros H. rewrite H in E.
    now rewrite (for_each_cons _ _ _ _ _ _ E), preceded_by_nil.
  - intros H N. rewrite H in E. apply Z.eqb_neq in N. rewrite N in E.
    now rewrite (for_each_cons _ _ _ _ _ _ E).
  - intros H N. rewrite H in E. rewrite N in E. cbn in E.
    rewrite (for_each_cons _ _ _ _ _ _ E), events_preceded_by.
    eexists. reflexivity.
Qed.

End TransferFacts.

Section ExtractFacts.

Context {W : Type} {host : Host W}.

Lemma extract_zst_files_eq (directory : string) (w : W) :
  extract_zst_files directory w =
  for_each (host_listdir directory w) (extract_one directory) w.
Proof.
  unfold extract_zst_files, bind at 1, os_listdir.
  change (for_each (host_listdir directory w) _ w)
    with (for_each (host_listdir directory w) (extract_one directory) w).
  destruct (for_each _ _ w) as [[r w1] t]. reflexivity.
Qed.

(** One turn of the loop of [extract_zst_files]. *)
Lemma extract_one_eq (directory filename : string) (w : W) :
  extract_one directory filename w =
  if endswith filename ".zst" then
    match host_subprocess_run (zstd_cmd directory filename) w with
    | (Some p, w1) =>
        (Returned tt, w1,
         [ Printed ("[*] Extracting " ++ filename ++ " -> "
                    ++ path_join directory (drop_last 4 filename));
           Run (zstd_cmd directory filename);
           Printed (if Z.eqb (returncode p) 0
                    then "[+] Extracted " ++ filename
                    else "[-] Failed to extract " ++ filename ++ ": " ++ stderr p) ])
    | (None, w1) =>
        (Raised FileNotFoundError, w1,
         [ Printed ("[*] Extracting " ++ filename ++ " -> "
                    ++ path_join directory (drop_last 4 filename));
           Run (zstd_cmd directory filename) ])
    end
  else (Returned tt, w, []).
Proof.
  unfold extract_one, zstd_cmd.
  destruct (endswith filename ".zst"); [|reflexivity].
  rewrite bind_print. unfold bind, subprocess_run, print.
  destruct (host_subprocess_run _ w) as [[p|] w1]; [|reflexivity].
  destruct (Z.eqb (returncode p) 0); reflexivity.
Qed.

Lemma substring_prefix_append (a b : string) :
  substring 0 (String.length a) (a ++ b) = a.
Proof. induction a as [|c a IH]; simpl; [now destruct b | now rewrite IH]. Qed.

(** X10.  The name [extract_zst_files] gives to an unpacked file is the
    packed name without its last four characters, and for a name that ends
    with .zst that is the name without the suffix: putting .zst back gives
    the packed name.  A name that does not end with .zst is left alone: no
    line, no launch, the world unchanged. *)
Theorem extract_names_drop_the_suffix (directory filename : string) (w : W) :
  (endswith filename ".zst" = true ->
   drop_last 4 filename ++ ".zst" = filename
   /\ forall stem, filename = stem ++ ".zst" -> drop_last 4 filename = stem)
  /\ (endswith filename ".zst" = false ->
      extract_one directory filename w = (Returned tt, w, [])).
Proof.
  split.
  - intros H. apply endswith_spec in H. destruct H as [a ->].
    assert (D : drop_last 4 (a ++ ".zst") = a).
    { unfold drop_last. rewrite length_append.
      replace (String.length a + String.length ".zst" - 4) with (String.length a)
        by (simpl; lia).
      apply substring_prefix_append. }
    split; [now rewrite D|].
    intros stem E. rewrite E. unfold drop_last. rewrite length_append.
    replace (String.length stem + String.length ".zst" - 4) with (String.length stem)
      by (simpl; lia).
    apply substring_prefix_append.
  - intros H. rewrite extract_one_eq, H. reflexivity.
Qed.

Lemma extract_loop_launches (directory : string) (names : list string) :
  forall w : W,
    let r := for_each names (extract_one directory) w in
    let planned := map (zstd_cmd directory)
                       (filter (fun f => endswith f ".zst") names) in
    (outcome r = Returned tt -> launches (events r) = planned)
    /\ (exists rest, planned = (launches (events r) ++ rest)%list)
    /\ fetches (events r) = [] /\ writes (events r) = []
    /\ removals (events r) = [] /\ sleeps (events r) = [].
Proof.
  induction names as [|f rest IH]; intros w; cbv zeta.
  - simpl. repeat split. now exists [].
  - pose proof (extract_one_eq directory f w) as E. cbn [filter].
    destruct (endswith f ".zst").
    + destruct (host_subprocess_run (zstd_cmd directory f) w) as [[p|] w1].
      * rewrite (for_each_cons _ _ _ _ _ _ E).
        rewrite outcome_preceded_by, events_preceded_by.
        rewrite launches_app, fetches_app, writes_app, removals_app, sleeps_app.
        destruct (IH w1) as [L [[more P] [F [Wr [Rm S]]]]]. rewrite F, Wr, Rm, S.
        cbn [launches fetches writes removals sleeps flat_map app map].
        split; [intros O; now rewrite (L O)|].
        split; [exists more; now rewrite P|]. repeat split.
      * rewrite (for_each_raised _ _ _ _ _ _ _ E).
        unfold outcome, events. cbn [fst snd].
        cbn [launches fetches writes removals sleeps flat_map app map].
        split; [discriminate|]. split; [eexists; reflexivity|]. repeat split.
    + rewrite (for_each_cons _ _ _ _ _ _ E), preceded_by_nil. apply IH.
Qed.

Lemma extract_zst_files_launches_core (directory : string) (w : W) :
  let r := extract_zst_files directory w in
  let planned := map (zstd_cmd directory)
                     (filter (fun f => endswith f ".zst") (host_listdir directory w)) in
  (outcome r = Returned tt -> launches (events r) = planned)
  /\ (exists rest, planned = (launches (events r) ++ rest)%list)
  /\ fetches (events r) = [] /\ writes (events r) = []
  /\ removals (events r) = [] /\ sleeps (events r) = [].
Proof.
  cbv zeta. rewrite extract_zst_files_eq.
  exact (extract_loop_launches directory (host_listdir directory w) w).
Qed.

(** X11.  What [extract_zst_files] launches.  It launches zstd -d -f on the
    files of the directory listing that end with .zst, in the order of the
    listing, each into the same directory under the name without the suffix,
    and launches nothing else: what it has launched is always the beginning
    of that list.  When it returns it has launched the whole list: a zstd
    that exits non-zero stops nothing.  It fetches, writes, removes and
    sleeps never. *)
Theorem extract_zst_files_launches (directory : string) (w : W) :
  let r := extract_zst_files directory w in
  let planned := map (zstd_cmd directory)
                     (filter (fun f => endswith f ".zst") (host_listdir directory w)) in
  (outcome r = Returned tt -> launches (events r) = planned)
  /\ (exists rest, planned = (launches (events r) ++ rest)%list)
  /\ fetches (events r) = [] /\ writes (events r) = []
  /\ removals (events r) = [] /\ sleeps (events r) = [].
Proof. exact (extract_zst_files_launches_core directory w). Qed.

(** X12.  The three tables of names agree.  Every name of [FILES] ends
    with .zst; every image name of [FLASH_COMMANDS] is its partition name
    followed by .img; and for any directory, the paths extraction writes for
    the names of [FILES] are, one by one and in the same order, the paths
    [flash_images] looks for. *)
Theorem download_and_flash_lists_agree (directory : string) :
  Forall (fun f => endswith f ".zst" = true) FILES
  /\ Forall (fun spec => snd spec = fst spec ++ ".img") FLASH_COMMANDS
  /\ map (fun f => path_join directory (drop_last 4 f)) FILES
     = map (fun spec => path_join directory (snd spec)) FLASH_COMMANDS
  /\ NoDup (map fst FLASH_COMMANDS).
Proof.
  split; [unfold FILES; forall_listed|].
  split; [unfold FLASH_COMMANDS; forall_listed|].
  split; [reflexivity|].
  unfold FLASH_COMMANDS. cbn [map fst].
  repeat (apply NoDup_cons;
          [intros H; cbn [In] in H;
           repeat (destruct H as [H|H]; [discriminate H|]); exact H|]).
  apply NoDup_nil.
Qed.

Lemma flash_sweep_launches (directory : string) (specs : list (string * string)) :
  forall w : W,
    let t := events (flash_sweep directory specs w) in
    subseq (launches t) (map (flash_cmd_of directory) specs)
    /\ fetches t = [] /\ writes t = [] /\ removals t = [] /\ sleeps t = [].
Proof.
  induction specs as [|[partition img_file] rest IH]; intros w; cbv zeta.
  - simpl. repeat split. constructor.
  - cbn [map]. unfold flash_cmd_of at 1. cbn [fst snd].
    destruct (host_path_exists (path_join directory img_file) w) eqn:E.
    + destruct (host_subprocess_run (flash_cmd partition (path_join directory img_file)) w)
        as [[p|] w1] eqn:R.
      * rewrite (flash_sweep_cons _ _ _ _ _ _ (flash_one_launched _ _ _ _ _ _ E R)).
        rewrite events_preceded_by.
        rewrite launches_app, fetches_app, writes_app, removals_app, sleeps_app.
        destruct (IH w1) as [L [F [Wr [Rm S]]]]. rewrite F, Wr, Rm, S.
        destruct (Z.eqb (returncode p) 0);
          cbn [outcome_events launches fetches writes removals sleeps flat_map app];
          repeat split; now apply subseq_keep.
      * unfold flash_sweep. cbn [for_each].
        rewrite (bind_raised _ _ _ _ _ _ (flash_one_not_found _ _ _ _ _ E R)).
        unfold events. cbn [snd].
        cbn [launches fetches writes removals sleeps flat_map app].
        repeat split. apply subseq_keep. apply subseq_nil_l.
    + rewrite (flash_sweep_cons _ _ _ _ _ _ (flash_one_missing _ partition _ _ E)).
      rewrite events_preceded_by.
      rewrite launches_app, fetches_app, writes_app, removals_app, sleeps_app.
      destruct (IH w) as [L [F [Wr [Rm S]]]]. rewrite F, Wr, Rm, S.
      cbn [outcome_events launches fetches writes removals sleeps flat_map app].
      repeat split. now apply subseq_skip.
Qed.

Lemma flash_images_launches_core (directory : string) (w : W) :
  let t := events (flash_images directory w) in
  exists flashes,
    launches t = ["fastboot"; "getvar"; "all"] :: flashes
    /\ subseq flashes (map (flash_cmd_of directory) FLASH_COMMANDS)
    /\ length flashes <= 18
    /\ fetches t = [] /\ writes t = [] /\ removals t = [] /\ sleeps t = [].
Proof.
  cbv zeta. rewrite flash_images_eq, events_preceded_by. cbv zeta.
  rewrite launches_app, fetches_app, writes_app, removals_app, sleeps_app.
  destruct (detect_oneplus_n200_fastboot_on _).
  - destruct (flash_sweep_launches
                directory FLASH_COMMANDS
                (snd (host_subprocess_run ["fastboot"; "getvar"; "all"] w)))
      as [L [F [Wr [Rm S]]]].
    cbv zeta in *. rewrite F, Wr, Rm, S. eexists. split; [reflexivity|].
    split; [exact L|]. split; [|repeat split].
    apply subseq_length in L. rewrite length_map in L. exact L.
  - exists []. repeat split; [apply subseq_nil_l | simpl; lia].
Qed.

(** X13.  What [flash_images] launches, however it ends: first the
    identity query, then flash commands only, each of the form
    fastboot flash --slot=all PARTITION DIRECTORY/IMAGE for a pair of
    [FLASH_COMMANDS], in the order of that list and none twice.  So at most
    eighteen flash commands, and never one for a partition that is not
    listed.  It fetches, writes, removes and sleeps never. *)
Theorem flash_images_launches_listed_only (directory : string) (w : W) :
  let t := events (flash_images directory w) in
  exists flashes,
    launches t = ["fastboot"; "getvar"; "all"] :: flashes
    /\ subseq flashes (map (flash_cmd_of directory) FLASH_COMMANDS)
    /\ length flashes <= 18
    /\ fetches t = [] /\ writes t = [] /\ removals t = [] /\ sleeps t = [].
Proof. exact (flash_images_launches_core directory w). Qed.

End ExtractFacts.

(* ================================================================= *)
(** ** Further facts: the main flow *)

Section MainFacts.

Context {W : Type} {host : Host W}.

Lemma world_after_triple {A} (a : result A) (w : W) (t : list event) :
  world_after (a, w, t) = w.
Proof. reflexivity. Qed.

Lemma main_eq (fuel : nat) (w : W) :
  main fuel w =
  let reply := host_input "Do you want to continue? (yes/[no]): " w in
  preceded_by
    [Printed disclaimer; Input "Do you want to continue? (yes/[no]): "]
    (if String.eqb (lower (strip (fst reply))) "yes" then
       preceded_by
         [ Printed (nl ++ "=== OnePlus N200 C.37 Blobs Autoflasher ===" ++ nl);
           Printed (nl ++ "=== Starting Device Detection Logic ===" ++ nl) ]
         (main_adb_mode fuel (snd reply))
     else (Raised (SystemExit 0), snd reply, [Printed "Aborted by user."])).
Proof.
  unfold main. rewrite bind_print. unfold bind at 1, input.
  destruct (host_input _ w) as [answer w1]. cbv zeta. cbn [fst snd].
  destruct (String.eqb (lower (strip answer)) "yes"); cbn [negb].
  - rewrite bind_print, bind_print, preceded_by_app.
    destruct (main_adb_mode fuel w1) as [[r w2] t]. reflexivity.
  - reflexivity.
Qed.

Lemma bind_ensure_fastbootd {B} (fuel : nat) (k : bool -> M B) (w : W) :
  bind (ensure_fastbootd fuel) k w =
  match outcome (ensure_fastbootd fuel w) with
  | Returned b =>
      preceded_by (events (ensure_fastbootd fuel w))
                  (k b (world_after (ensure_fastbootd fuel w)))
  | Raised e => (Raised e, world_after (ensure_fastbootd fuel w),
                 events (ensure_fastbootd fuel w))
  | StillRunning => (StillRunning, world_after (ensure_fastbootd fuel w),
                     events (ensure_fastbootd fuel w))
  end.
Proof.
  unfold bind. destruct (ensure_fastbootd fuel w) as [[[b|e|] w1] t]; reflexivity.
Qed.

Lemma main_fastboot_mode_eq (fuel : nat) (w : W) :
  main_fastboot_mode fuel w =
  let r1 := host_subprocess_run ["fastboot"; "devices"] w in
  preceded_by
    [Run ["fastboot"; "devices"]]
    (if fastboot_device_present_on (run_on (fst r1)) then
       preceded_by
         [Printed "[*] Device detected in fastboot mode."]
         (bind (ensure_fastbootd fuel)
               (fun _ w2 =>
                  let r2 := host_subprocess_run ["fastboot"; "getvar"; "all"] w2 in
                  preceded_by
                    [Run ["fastboot"; "getvar"; "all"]]
                    (if detect_oneplus_n200_fastboot_on (run_on (fst r2)) then
                       preceded_by
                         [Printed "✔ Device confirmed as OnePlus N200 in fastbootd."]
                         (main_download_and_flash (snd r2))
                     else
                       (Returned tt, snd r2,
                        [Printed "✘ Fastbootd device detected, but NOT a OnePlus N200. Aborting."])))
               (snd r1))
     else main_download_and_flash (snd r1)).
Proof.
  unfold main_fastboot_mode.
  rewrite (bind_returned _ _ _ _ _ _ (fastboot_device_present_eq w)). cbv zeta.
  destruct (fastboot_device_present_on _); [|reflexivity].
  rewrite bind_print. do 2 f_equal.
  rewrite !bind_ensure_fastbootd.
  destruct (outcome (ensure_fastbootd fuel _)); try reflexivity. f_equal.
  rewrite (bind_returned _ _ _ _ _ _ (detect_oneplus_n200_fastboot_eq _)).
  destruct (detect_oneplus_n200_fastboot_on _); cbn [negb]; [|reflexivity].
  now rewrite bind_print.
Qed.

Lemma main_adb_mode_eq (fuel : nat) (w : W) :
  main_adb_mode fuel w =
  let r1 := host_subprocess_run ["adb"; "devices"] w in
  preceded_by
    [Run ["adb"; "devices"]]
    (if adb_device_present_on (fst (run_on (fst r1))) then
       let r2 := host_subprocess_run ["adb"; "shell"; "getprop"] (snd r1) in
       preceded_by
         [Printed "[*] Device detected in ADB mode."; Run ["adb"; "shell"; "getprop"]]
         (if detect_oneplus_n200_adb_on (fst (run_on (fst r2))) then
            preceded_by
              [ Printed "✔ Device is a OnePlus N200 (ADB mode). Rebooting to fastbootd...";
                Run ["adb"; "reboot"; "fastboot"];
                Sleep 15 ]
              (bind (ensure_fastbootd fuel) (fun _ => main_fastboot_mode fuel)
                    (host_sleep 15
                       (snd (host_subprocess_run ["adb"; "reboot"; "fastboot"] (snd r2)))))
          else
            (Returned tt, snd r2,
             [Printed "✘ ADB device detected, but it is NOT a OnePlus N200."]))
     else main_fastboot_mode fuel (snd r1)).
Proof.
  unfold main_adb_mode.
  rewrite (bind_returned _ _ _ _ _ _ (adb_device_present_eq w)). cbv zeta.
  destruct (adb_device_present_on _); [|reflexivity].
  rewrite bind_print.
  rewrite (bind_returned _ _ _ _ _ _ (detect_oneplus_n200_adb_eq _)).
  rewrite preceded_by_app. cbn [app].
  destruct (detect_oneplus_n200_adb_on
              (fst (run_on (fst (host_subprocess_run
                                   ["adb"; "shell"; "getprop"]
                                   (snd (host_subprocess_run ["adb"; "devices"] w)))))));
    [|reflexivity].
  rewrite bind_print.
  erewrite bind_returned by apply run_eq.
  rewrite !preceded_by_app. unfold bind at 1, time_sleep.
  match goal with |- context [bind (ensure_fastbootd fuel) ?k ?w'] =>
    destruct (bind (ensure_fastbootd fuel) k w') as [[r w3] t] end.
  reflexivity.
Qed.

(** X14.  Nothing happens without consent.  [main] prints the disclaimer
    and asks; unless the answer, stripped and lowered, is yes, it prints one
    line and raises SystemExit with code 0, having launched no program,
    fetched nothing and touched no file.  With such an answer it goes on to
    the detection. *)
Theorem main_needs_consent (fuel : nat) (w : W) :
  let reply := host_input "Do you want to continue? (yes/[no]): " w in
  (lower (strip (fst reply)) <> "yes" ->
   main fuel w =
   (Raised (SystemExit 0), snd reply,
    [ Printed disclaimer;
      Input "Do you want to continue? (yes/[no]): ";
      Printed "Aborted by user." ]))
  /\ (lower (strip (fst reply)) = "yes" ->
      main fuel w =
      preceded_by
        [ Printed disclaimer;
          Input "Do you want to continue? (yes/[no]): ";
          Printed (nl ++ "=== OnePlus N200 C.37 Blobs Autoflasher ===" ++ nl);
          Printed (nl ++ "=== Starting Device Detection Logic ===" ++ nl) ]
        (main_adb_mode fuel (snd reply))).
Proof.
  cbv zeta. rewrite main_eq. cbv zeta. split; intros H.
  - apply String.eqb_neq in H. rewrite H. reflexivity.
  - apply String.eqb_eq in H. rewrite H. now rewrite preceded_by_app.
Qed.

(** X15.  A bridge device that is not a OnePlus N200 ends the run at once:
    after the bridge listing and the property read, [main] prints one line
    and returns.  No fastboot command, no download, no flash. *)
Theorem main_stops_on_foreign_bridge_device (fuel : nat) (w : W) :
  let listing := adb_device_present w in
  let identity := detect_oneplus_n200_adb (world_after listing) in
  outcome listing = Returned true ->
  outcome identity = Returned false ->
  main_adb_mode fuel w =
  (Returned tt, world_after identity,
   [ Run ["adb"; "devices"];
     Printed "[*] Device detected in ADB mode.";
     Run ["adb"; "shell"; "getprop"];
     Printed "✘ ADB device detected, but it is NOT a OnePlus N200." ]).
Proof.
  cbv zeta. rewrite adb_device_present_eq.
  unfold outcome, world_after. cbn [fst snd].
  rewrite detect_oneplus_n200_adb_eq. cbn [fst snd].
  intros H1 H2. injection H1 as H1. injection H2 as H2.
  rewrite main_adb_mode_eq. cbv zeta. rewrite H1, H2. reflexivity.
Qed.

(** X16.  A fastboot device that fails the identity check ends the run:
    when the presence check finds a device and [ensure_fastbootd] returns
    (with either answer), a failed identity check makes [main] print one line
    and return.  The log holds the presence check, the transition, the
    identity query and that line: no download, no flash, no reboot. *)
Theorem main_stops_on_foreign_fastboot_device (fuel : nat) (w : W) (b : bool) :
  let listing := fastboot_device_present w in
  let transition := ensure_fastbootd fuel (world_after listing) in
  let identity := detect_oneplus_n200_fastboot (world_after transition) in
  outcome listing = Returned true ->
  outcome transition = Returned b ->
  outcome identity = Returned false ->
  main_fastboot_mode fuel w =
  (Returned tt, world_after identity,
   ([ Run ["fastboot"; "devices"];
      Printed "[*] Device detected in fastboot mode." ]
    ++ events transition
    ++ [ Run ["fastboot"; "getvar"; "all"];
         Printed "✘ Fastbootd device detected, but NOT a OnePlus N200. Aborting." ])%list).
Proof.
  cbv zeta. intros H1 H2 H3.
  rewrite fastboot_device_present_eq in H1, H2, H3 |- *.
  rewrite !world_after_triple in *.
  rewrite detect_oneplus_n200_fastboot_eq in H3 |- *.
  rewrite !world_after_triple in *.
  unfold outcome in H1, H3. cbn [fst] in H1, H3.
  injection H1 as H1. injection H3 as H3.
  rewrite main_fastboot_mode_eq. cbv zeta. rewrite H1.
  rewrite bind_ensure_fastbootd, H2, H3.
  rewrite !preceded_by_app. unfold preceded_by.
  now rewrite <- !app_assoc.
Qed.

(** X17.  With no device on either transport [main] does not stop: when the
    bridge listing and the fastboot listing both come back without a device,
    it runs neither identity check nor transition and goes straight on to
    the download, leaving the identity check of [flash_images] as the only
    gate. *)
Theorem main_without_any_device_goes_on (fuel : nat) (w : W) :
  let bridge := adb_device_present w in
  let fastboot := fastboot_device_present (world_after bridge) in
  outcome bridge = Returned false ->
  outcome fastboot = Returned false ->
  main_adb_mode fuel w =
  preceded_by [Run ["adb"; "devices"]; Run ["fastboot"; "devices"]]
              (main_download_and_flash (world_after fastboot)).
Proof.
  cbv zeta. rewrite adb_device_present_eq.
  unfold outcome, world_after. cbn [fst snd].
  rewrite fastboot_device_present_eq. cbn [fst snd].
  intros H1 H2. injection H1 as H1. injection H2 as H2.
  rewrite main_adb_mode_eq. cbv zeta. rewrite H1.
  rewrite main_fastboot_mode_eq. cbv zeta. rewrite H2.
  now rewrite preceded_by_app.
Qed.

End MainFacts.

Section FunnelFacts.

Context {W : Type} {host : Host W}.

Lemma bind_cases {A B} (m : M A) (k : A -> M B) (w : W) :
  bind m k w =
  match outcome (m w) with
  | Returned a => preceded_by (events (m w)) (k a (world_after (m w)))
  | Raised e => (Raised e, world_after (m w), events (m w))
  | StillRunning => (StillRunning, world_after (m w), events (m w))
  end.
Proof. unfold bind. destruct (m w) as [[[a|e|] w1] t]; reflexivity. Qed.

Lemma events_triple {A} (a : result A) (w : W) (t : list event) :
  events (a, w, t) = t.
Proof. reflexivity. Qed.

Lemma outcome_triple {A} (a : result A) (w : W) (t : list event) :
  outcome (a, w, t) = a.
Proof. reflexivity. Qed.

Lemma main_download_and_flash_eq (w : W) :
  main_download_and_flash w =
  let staged := download_files FILES w in
  let tmp_dir := fst (host_mkdtemp "oplus_download_" w) in
  let unpacked := extract_zst_files tmp_dir (world_after staged) in
  let flashed := flash_images tmp_dir (world_after unpacked) in
  let before_flash :=
    ([Printed (nl ++ "=== Downloading Needed Update Files ===" ++ nl)]
     ++ events staged ++ events unpacked)%list in
  match outcome unpacked with
  | Returned _ =>
      match outcome flashed with
      | Returned _ =>
          (Returned tt,
           snd (host_subprocess_run ["fastboot"; "reboot"]
                                    (host_rmtree tmp_dir (world_after flashed))),
           (before_flash
            ++ [Printed (nl ++ "=== Flashing Update Files ===" ++ nl)]
            ++ events flashed
            ++ [ Printed ("[*] Cleaning up temporary files: " ++ tmp_dir);
                 Rmtree tmp_dir;
                 Printed "[+] Cleanup complete.";
                 Printed "Rebooting Device";
                 Run ["fastboot"; "reboot"];
                 Printed (nl ++ "[+] All done.") ])%list)
      | Raised e =>
          (Raised e, world_after flashed,
           (before_flash
            ++ [Printed (nl ++ "=== Flashing Update Files ===" ++ nl)]
            ++ events flashed)%list)
      | StillRunning =>
          (StillRunning, world_after flashed,
           (before_flash
            ++ [Printed (nl ++ "=== Flashing Update Files ===" ++ nl)]
            ++ events flashed)%list)
      end
  | Raised e => (Raised e, world_after unpacked, before_flash)
  | StillRunning => (StillRunning, world_after unpacked, before_flash)
  end.
Proof.
  cbv zeta. unfold main_download_and_flash. rewrite bind_print.
  rewrite bind_cases.
  destruct (download_files_accounts FILES w) as [O _].
  rewrite O. rewrite bind_cases.
  destruct (outcome (extract_zst_files _ _)) eqn:X;
    [| unfold preceded_by; now rewrite <- ?app_assoc
     | unfold preceded_by; now rewrite <- ?app_assoc ].
  rewrite bind_print, bind_cases.
  destruct (outcome (flash_images _ _)) eqn:F;
    [| unfold preceded_by; cbn [app]; now rewrite <- ?app_assoc
     | unfold preceded_by; cbn [app]; now rewrite <- ?app_assoc ].
  rewrite bind_print. unfold bind at 1, shutil_rmtree.
  rewrite bind_print, bind_print.
  erewrite bind_returned by apply run_eq.
  unfold print, preceded_by. cbn [app fst snd].
  now rewrite <- ?app_assoc.
Qed.

(** X18.  The end of [main], from the download on.  When extraction and
    [flash_images] both return (also when [flash_images] returned because
    its identity check failed), the temporary directory is removed once and
    fastboot reboot is the last launch.  When either of them raises, the
    exception leaves [main] as it is: the temporary directory is not
    removed and no reboot is sent.  Besides the reboot, this part launches
    only what extraction and [flash_images] launch. *)
Theorem main_cleans_up_only_when_nothing_raises (w : W) :
  let staged := download_files FILES w in
  let tmp_dir := fst (host_mkdtemp "oplus_download_" w) in
  let unpacked := extract_zst_files tmp_dir (world_after staged) in
  let flashed := flash_images tmp_dir (world_after unpacked) in
  let r := main_download_and_flash w in
  match outcome unpacked, outcome flashed with
  | Returned _, Returned _ =>
      outcome r = Returned tt
      /\ removals (events r) = [tmp_dir]
      /\ launches (events r) =
         (launches (events unpacked) ++ launches (events flashed)
          ++ [["fastboot"; "reboot"]])%list
  | Returned _, _ =>
      outcome r = outcome flashed
      /\ removals (events r) = []
      /\ launches (events r) =
         (launches (events unpacked) ++ launches (events flashed))%list
  | _, _ =>
      outcome r = outcome unpacked
      /\ removals (events r) = []
      /\ launches (events r) = launches (events unpacked)
  end.
Proof.
  cbv zeta. rewrite main_download_and_flash_eq. cbv zeta.
  destruct (download_files_accounts FILES w)
    as [_ [_ [_ [_ [Ld [Rd _]]]]]]. cbv zeta in Ld, Rd.
  pose proof (extract_zst_files_launches_core
                (fst (host_mkdtemp "oplus_download_" w))
                (world_after (download_files FILES w))) as [_ [_ [_ [_ [Rx _]]]]].
  cbv zeta in Rx.
  pose proof (flash_images_launches_core
                (fst (host_mkdtemp "oplus_download_" w))
                (world_after (extract_zst_files
                                (fst (host_mkdtemp "oplus_download_" w))
                                (world_after (download_files FILES w)))))
    as [flashes [_ [_ [_ [_ [_ [Rf _]]]]]]].
  cbv zeta in Rf.
  destruct (outcome (extract_zst_files _ _)) eqn:X.
  - destruct (outcome (flash_images _ _)) eqn:F;
      rewrite !events_triple, outcome_triple;
      rewrite !removals_app, !launches_app, Ld, Rd, Rx, Rf;
      repeat split.
  - rewrite !events_triple, outcome_triple;
      rewrite !removals_app, !launches_app, Ld, Rd, Rx; repeat split.
  - rewrite !events_triple, outcome_triple;
      rewrite !removals_app, !launches_app, Ld, Rd, Rx; repeat split.
Qed.

End FunnelFacts.

Section FunnelProof.

Context {W : Type} {host : Host W}.

Lemma flashless_app (a b : list event) :
  flashless (a ++ b) <-> flashless a /\ flashless b.
Proof.
  unfold flashless. rewrite filter_app. split.
  - intros H. now apply app_eq_nil in H.
  - intros [-> ->]. reflexivity.
Qed.

Lemma flashless_of_launches (t : list event) :
  Forall (fun cmd => is_flash_command (Run cmd) = false) (launches t) -> flashless t.
Proof.
  unfold flashless. induction t as [|e t IH]; intros H; [reflexivity|].
  destruct e; cbn [launches flat_map app] in H;
    try (cbn [filter is_flash_command]; now apply IH).
  inversion H as [|c l Hc Hl]; subst.
  cbn [filter]. rewrite Hc. now apply IH.
Qed.

Lemma funnel_preceded {A} (t : list event) (r : result A * W * list event) :
  flashless t -> flashes_through_flash_images r ->
  flashes_through_flash_images (preceded_by t r).
Proof.
  intros Ht [H | [pre [d [w' [post [E [Hp [Hq Hi]]]]]]]];
    unfold flashes_through_flash_images; rewrite events_preceded_by.
  - left. now apply flashless_app.
  - right. exists (t ++ pre)%list, d, w', post. rewrite E.
    rewrite <- app_assoc. repeat split; auto. now apply flashless_app.
Qed.

Lemma funnel_flashless {A} (r : result A * W * list event) :
  flashless (events r) -> flashes_through_flash_images r.
Proof. intros H. now left. Qed.

Lemma ensure_fastbootd_flashless (fuel : nat) (w : W) :
  flashless (events (ensure_fastbootd fuel w)).
Proof.
  rewrite ensure_fastbootd_eq, events_preceded_by.
  apply flashless_app. split; [reflexivity|].
  apply flashless_of_launches.
  destruct (ensure_fastbootd_loop_accounts fuel w) as [L _]. cbv zeta in L.
  eapply Forall_impl; [|exact L].
  intros cmd [-> | [-> | ->]]; reflexivity.
Qed.

Lemma download_files_flashless (file_list : list string) (w : W) :
  flashless (events (download_files file_list w)).
Proof.
  apply flashless_of_launches.
  destruct (download_files_accounts file_list w) as [_ [_ [_ [_ [L _]]]]].
  cbv zeta in L. rewrite L. constructor.
Qed.

Lemma extract_zst_files_flashless (directory : string) (w : W) :
  flashless (events (extract_zst_files directory w)).
Proof.
  apply flashless_of_launches.
  destruct (extract_zst_files_launches_core directory w) as [_ [[rest E] _]].
  cbv zeta in E.
  assert (P : Forall (fun cmd => is_flash_command (Run cmd) = false)
                     (map (zstd_cmd directory)
                          (filter (fun f => endswith f ".zst")
                                  (host_listdir directory w)))).
  { apply Forall_forall. intros cmd Hin. apply in_map_iff in Hin.
    destruct Hin as [f [<- _]]. reflexivity. }
  rewrite E in P. now apply Forall_app in P.
Qed.

Lemma flash_images_funnel (directory : string) (w : W) :
  flashes_through_flash_images (flash_images directory w).
Proof.
  destruct (detect_oneplus_n200_fastboot_on
              (run_on (fst (host_subprocess_run ["fastboot"; "getvar"; "all"] w)))) eqn:I.
  - right. exists [], directory, w, []. rewrite app_nil_r.
    repeat split. rewrite detect_oneplus_n200_fastboot_eq, outcome_triple. now rewrite I.
  - left. rewrite flash_images_eq. cbv zeta. rewrite I. reflexivity.
Qed.

Lemma main_download_and_flash_funnel (w : W) :
  flashes_through_flash_images (main_download_and_flash w).
Proof.
  rewrite main_download_and_flash_eq. cbv zeta.
  pose proof (download_files_flashless FILES w) as Fd.
  pose proof (extract_zst_files_flashless
                (fst (host_mkdtemp "oplus_download_" w))
                (world_after (download_files FILES w))) as Fx.
  assert (Fb : flashless
                 ([Printed (nl ++ "=== Downloading Needed Update Files ===" ++ nl)]
                  ++ events (download_files FILES w)
                  ++ events (extract_zst_files
                               (fst (host_mkdtemp "oplus_download_" w))
                               (world_after (download_files FILES w))))%list).
  { apply flashless_app. split; [reflexivity|]. now apply flashless_app. }
  destruct (outcome (extract_zst_files _ _));
    [| left; now rewrite events_triple | left; now rewrite events_triple].
  destruct (flash_images_funnel
              (fst (host_mkdtemp "oplus_download_" w))
              (world_after (extract_zst_files
                              (fst (host_mkdtemp "oplus_download_" w))
                              (world_after (download_files FILES w)))))
    as [Ff | [pre [d [w' [post [E [Hp [Hq Hi]]]]]]]].
  - left. destruct (outcome (flash_images _ _)); rewrite events_triple;
      repeat (apply flashless_app; split); auto; reflexivity.
  - right.
    destruct (outcome (flash_images _ _)); rewrite events_triple, E.
    + exists (([Printed (nl ++ "=== Downloading Needed Update Files ===" ++ nl)]
               ++ events (download_files FILES w)
               ++ events (extract_zst_files
                            (fst (host_mkdtemp "oplus_download_" w))
                            (world_after (download_files FILES w))))
              ++ [Printed (nl ++ "=== Flashing Update Files ===" ++ nl)] ++ pre)%list,
        d, w'.
      eexists. split; [now rewrite <- !app_assoc|].
      split; [repeat (apply flashless_app; split); auto; reflexivity|].
      split; [|exact Hi].
      apply flashless_app. split; [exact Hq | reflexivity].
    + exists (([Printed (nl ++ "=== Downloading Needed Update Files ===" ++ nl)]
               ++ events (download_files FILES w)
               ++ events (extract_zst_files
                            (fst (host_mkdtemp "oplus_download_" w))
                            (world_after (download_files FILES w))))
              ++ [Printed (nl ++ "=== Flashing Update Files ===" ++ nl)] ++ pre)%list,
        d, w', post.
      split; [now rewrite <- !app_assoc|].
      split; [repeat (apply flashless_app; split); auto; reflexivity|].
      split; [exact Hq | exact Hi].
    + exists (([Printed (nl ++ "=== Downloading Needed Update Files ===" ++ nl)]
               ++ events (download_files FILES w)
               ++ events (extract_zst_files
                            (fst (host_mkdtemp "oplus_download_" w))
                            (world_after (download_files FILES w))))
              ++ [Printed (nl ++ "=== Flashing Update Files ===" ++ nl)] ++ pre)%list,
        d, w', post.
      split; [now rewrite <- !app_assoc|].
      split; [repeat (apply flashless_app; split); auto; reflexivity|].
      split; [exact Hq | exact Hi].
Qed.

Lemma main_fastboot_mode_funnel (fuel : nat) (w : W) :
  flashes_through_flash_images (main_fastboot_mode fuel w).
Proof.
  rewrite main_fastboot_mode_eq. cbv zeta.
  apply funnel_preceded; [reflexivity|].
  destruct (fastboot_device_present_on _); [|apply main_download_and_flash_funnel].
  apply funnel_preceded; [reflexivity|].
  rewrite bind_ensure_fastbootd.
  pose proof (ensure_fastbootd_flashless
                fuel (snd (host_subprocess_run ["fastboot"; "devices"] w))) as Fe.
  destruct (outcome (ensure_fastbootd fuel _));
    [| apply funnel_flashless; now rewrite events_triple
     | apply funnel_flashless; now rewrite events_triple].
  apply funnel_preceded; [exact Fe|].
  apply funnel_preceded; [reflexivity|].
  destruct (detect_oneplus_n200_fastboot_on _).
  - apply funnel_preceded; [reflexivity | apply main_download_and_flash_funnel].
  - apply funnel_flashless. reflexivity.
Qed.

Lemma main_adb_mode_funnel (fuel : nat) (w : W) :
  flashes_through_flash_images (main_adb_mode fuel w).
Proof.
  rewrite main_adb_mode_eq. cbv zeta.
  apply funnel_preceded; [reflexivity|].
  destruct (adb_device_present_on _); [|apply main_fastboot_mode_funnel].
  apply funnel_preceded; [reflexivity|].
  destruct (detect_oneplus_n200_adb_on _); [|apply funnel_flashless; reflexivity].
  apply funnel_preceded; [reflexivity|].
  rewrite bind_ensure_fastbootd.
  match goal with |- context [ensure_fastbootd fuel ?w'] =>
    pose proof (ensure_fastbootd_flashless fuel w') as Fe end.
  destruct (outcome (ensure_fastbootd fuel _));
    [| apply funnel_flashless; now rewrite events_triple
     | apply funnel_flashless; now rewrite events_triple].
  apply funnel_preceded; [exact Fe | apply main_fastboot_mode_funnel].
Qed.

(** X19.  [main] flashes only through [flash_images], and only with
    consent.  In every run of [main], on every machine: either no flash
    command is launched at all, or all flash commands of the run lie inside
    one call of [flash_images] whose identity check passed, with no flash
    command before or after that call.  A run that launches a flash command
    is one in which the answer at the prompt, stripped and lowered, was
    yes. *)
Theorem main_flashes_only_through_flash_images (fuel : nat) (w : W) :
  flashes_through_flash_images (main fuel w)
  /\ (~ flashless (events (main fuel w)) ->
      lower (strip (fst (host_input "Do you want to continue? (yes/[no]): " w))) = "yes").
Proof.
  rewrite main_eq. cbv zeta.
  destruct (String.eqb _ "yes") eqn:Y.
  - split; [|intros _; now apply String.eqb_eq].
    apply funnel_preceded; [reflexivity|].
    apply funnel_preceded; [reflexivity|].
    apply main_adb_mode_funnel.
  - split; [apply funnel_flashless; reflexivity|].
    intros H. exfalso. apply H. reflexivity.
Qed.

End FunnelProof.

(* ================================================================= *)
(** ** The further facts on the scripted machine *)

(** X2 at a device that leaves the bootloader after one reboot. *)
Lemma ensure_fastbootd_answer_reflects_last_poll_witness :
  outcome (ensure_fastbootd 3 (boot bootloader_then_fastbootd [])) = Returned true
  /\ exists w0 pre,
      fastboot_device_present_on
        (run_on (fst (host_subprocess_run
                        ["fastboot"; "devices"]
                        (snd (host_subprocess_run
                                ["fastboot"; "getvar"; "is-userspace"] w0))))) = true
      /\ events (ensure_fastbootd 3 (boot bootloader_then_fastbootd [])) =
         (pre ++ [ Run ["fastboot"; "getvar"; "is-userspace"];
                   Run ["fastboot"; "devices"];
                   Printed "✔ Device is in fastbootd (userspace)." ])%list.
Proof.
  assert (H : outcome (ensure_fastbootd 3 (boot bootloader_then_fastbootd []))
              = Returned true) by reflexivity.
  split; [exact H|].
  destruct (ensure_fastbootd_answer_reflects_last_poll
              3 (boot bootloader_then_fastbootd []) true H)
    as [w0 [pre [_ [P [_ E]]]]].
  exists w0, pre. split; [exact P | exact E].
Defined.

(** X3 at a machine without the fastboot program. *)
Lemma ensure_fastbootd_without_fastboot_program_witness :
  outcome (ensure_fastbootd 1 (boot no_fastboot [])) = Returned false.
Proof.
  rewrite (ensure_fastbootd_without_fastboot_program 0 (boot no_fastboot []));
    reflexivity.
Defined.

(** X4 at a device in the bootloader. *)
Lemma ensure_fastbootd_reboots_from_bootloader_witness :
  launches (events (ensure_fastbootd_loop 2 (boot bootloader_then_fastbootd []))) =
  [ ["fastboot"; "getvar"; "is-userspace"]; ["fastboot"; "devices"];
    ["fastboot"; "reboot"; "fastboot"];
    ["fastboot"; "getvar"; "is-userspace"]; ["fastboot"; "devices"] ].
Proof.
  rewrite (ensure_fastbootd_reboots_from_bootloader
             1 (boot bootloader_then_fastbootd []));
    reflexivity.
Defined.

(** X7 at a machine with nothing attached. *)
Lemma download_files_requests_listed_files_only_witness :
  "/tmp/oplus_download_k3x9q2ab"
  = fst (host_mkdtemp "oplus_download_" (boot nothing_attached [])).
Proof.
  apply (proj1 (download_files_requests_listed_files_only
                  FILES (boot nothing_attached []))).
  reflexivity.
Defined.

(** X8 at a server that answers 404. *)
Lemma download_turn_cases_witness :
  for_each ["abl.img.zst"; "tz.img.zst"] (download_one "/tmp/d") (boot_offline nothing_attached) =
  preceded_by
    [ Printed "[*] Downloading abl.img.zst...";
      HttpGet (BASE_URL ++ "abl.img.zst");
      Printed "[-] Failed to download abl.img.zst: HTTP 404" ]
    (for_each ["tz.img.zst"] (download_one "/tmp/d") (boot_offline nothing_attached)).
Proof.
  rewrite (proj1 (proj2 (download_turn_cases
                           "/tmp/d" "abl.img.zst" ["tz.img.zst"]
                           (boot_offline nothing_attached)))).
  - reflexivity.
  - reflexivity.
  - vm_compute. discriminate.
Defined.

(** X10 at a packed image name. *)
Lemma extract_names_drop_the_suffix_witness :
  drop_last 4 "abl.img.zst" ++ ".zst" = "abl.img.zst".
Proof.
  apply (proj1 (@extract_names_drop_the_suffix
                  machine machine_host "/tmp/d" "abl.img.zst" (boot nothing_attached []))).
  reflexivity.
Defined.

(** X11 at a machine that has just downloaded two packed files. *)
Lemma extract_zst_files_launches_witness :
  launches (events (extract_zst_files
                      "/tmp/d"
                      (boot n200_in_fastbootd
                            ["/tmp/d/abl.img.zst"; "/tmp/d/notes.txt"; "/tmp/d/tz.img.zst"])))
  = [ zstd_cmd "/tmp/d" "abl.img.zst"; zstd_cmd "/tmp/d" "tz.img.zst" ].
Proof.
  rewrite (proj1 (extract_zst_files_launches
                    "/tmp/d"
                    (boot n200_in_fastbootd
                          ["/tmp/d/abl.img.zst"; "/tmp/d/notes.txt"; "/tmp/d/tz.img.zst"])));
    reflexivity.
Defined.

(** X14 at a user who declines. *)
Lemma main_needs_consent_witness :
  outcome (main 3 (boot_typing " No " n200_in_fastbootd)) = Raised (SystemExit 0)
  /\ launches (events (main 3 (boot_typing " No " n200_in_fastbootd))) = [].
Proof.
  rewrite (proj1 (main_needs_consent 3 (boot_typing " No " n200_in_fastbootd))).
  - split; reflexivity.
  - vm_compute. discriminate.
Defined.

(** X15 at another phone on the bridge. *)
Lemma main_stops_on_foreign_bridge_device_witness :
  launches (events (main_adb_mode 3 (boot other_phone_on_bridge []))) =
  [["adb"; "devices"]; ["adb"; "shell"; "getprop"]].
Proof.
  rewrite (main_stops_on_foreign_bridge_device
             3 (boot other_phone_on_bridge []));
    reflexivity.
Defined.

(** X16 at another phone in userspace fastboot. *)
Lemma main_stops_on_foreign_fastboot_device_witness :
  launches (events (main_fastboot_mode 3 (boot other_phone_in_fastbootd []))) =
  [ ["fastboot"; "devices"];
    ["fastboot"; "getvar"; "is-userspace"]; ["fastboot"; "devices"];
    ["fastboot"; "getvar"; "all"] ].
Proof.
  rewrite (main_stops_on_foreign_fastboot_device
             3 (boot other_phone_in_fastbootd []) true);
    reflexivity.
Defined.

(** X17 at a machine with nothing attached. *)
Lemma main_without_any_device_goes_on_witness :
  length (fetches (events (main_adb_mode 3 (boot nothing_attached [])))) = 18.
Proof.
  rewrite (main_without_any_device_goes_on
             3 (boot nothing_attached []));
    vm_compute; reflexivity.
Defined.

(** X19 at a OnePlus N200 in userspace fastboot: the run flashes, so the
    answer was yes. *)
Lemma main_flashes_only_through_flash_images_witness :
  lower (strip (fst (host_input "Do you want to continue? (yes/[no]): "
                                (boot n200_in_fastbootd [])))) = "yes".
Proof.
  apply (proj2 (main_flashes_only_through_flash_images 3 (boot n200_in_fastbootd []))).
  intros H. vm_compute in H. discriminate H.
Defined.

(* ================================================================= *)
(** ** Facts about mtk-comfinder *)

Section MtkFacts.

Import MtkComFinder.

Context {W Interval : Type} {serial : SerialHost W Interval}.

(** X20.  Which port counts as a MediaTek preloader.  The keyword test
    holds exactly when the description, a space and the hardware id (each
    empty when absent) contain one of MediaTek, MTK, Preloader, USB VCOM in
    any letter case.  The number test holds exactly when the vendor id is
    0x0E8D and a product id is present: a port with that vendor id and no
    product id does not pass it. *)
Theorem mtk_match_rule (port : ListPortInfo) :
  (keyword_match port = true <->
   exists keyword, In keyword MTK_KEYWORDS
                   /\ has_token_nocase (lower keyword) (port_text port))
  /\ (vid_pid_match port = true <-> vid port = Some 3725%Z /\ pid port <> None)
  /\ (is_mtk port = true <-> keyword_match port = true \/ vid_pid_match port = true).
Proof.
  split; [|split].
  - unfold keyword_match. rewrite existsb_exists. split.
    + intros [k [Hin H]]. exists k. now rewrite <- contains_lower_spec.
    + intros [k [Hin H]]. exists k. now rewrite contains_lower_spec.
  - unfold vid_pid_match, MTK_VID.
    destruct (vid port) as [v|]; destruct (pid port) as [p|]; split;
      try discriminate; try (intros [? ?]; congruence).
    + intros H. apply Z.eqb_eq in H. subst. split; [reflexivity | discriminate].
    + intros [H _]. injection H as ->. reflexivity.
  - unfold is_mtk. apply orb_true_iff.
Qed.

Lemma seen_has_cons (id x : string * option string) (seen : list (string * option string)) :
  seen_has (x :: seen) id = port_id_eqb id x || seen_has seen id.
Proof. reflexivity. Qed.

Lemma port_id_eqb_refl (id : string * option string) : port_id_eqb id id = true.
Proof.
  destruct id as [d [h|]]; unfold port_id_eqb; cbn [fst snd];
    now rewrite ?String.eqb_refl.
Qed.

Lemma port_id_eqb_eq (a b : string * option string) : port_id_eqb a b = true <-> a = b.
Proof.
  destruct a as [d [h|]]; destruct b as [e [k|]]; unfold port_id_eqb; cbn [fst snd];
    rewrite andb_true_iff, ?String.eqb_eq; split;
    try (intros [-> ->]; reflexivity); try (intros [_ H]; discriminate H);
    try (intros H; injection H as -> ->; auto); try (intros H; discriminate H).
  - intros [-> _]. reflexivity.
  - intros H. injection H as ->. auto.
Qed.

Lemma seen_has_In (seen : list (string * option string)) (id : string * option string) :
  seen_has seen id = true <-> In id seen.
Proof.
  unfold seen_has. rewrite existsb_exists. split.
  - intros [x [Hin H]]. apply port_id_eqb_eq in H. now subst.
  - intros H. exists id. split; [exact H | apply port_id_eqb_refl].
Qed.

Lemma scan_ports_spec (ports : list ListPortInfo) :
  forall seen,
    incl seen (snd (scan_ports ports seen))
    /\ match fst (scan_ports ports seen) with
       | Some dev =>
           exists port, In port ports /\ device port = dev /\ is_mtk port = true
                        /\ seen_has seen (port_id port) = false
       | None =>
           (forall port, In port ports -> In (port_id port) (snd (scan_ports ports seen)))
           /\ (forall port, In port ports -> is_mtk port = true ->
                            In (port_id port) seen
                            \/ exists other, In other ports
                                             /\ port_id other = port_id port
                                             /\ is_mtk other = false)
       end.
Proof.
  induction ports as [|p rest IH]; intros seen; cbn [scan_ports].
  - split; [apply incl_refl|]. cbn [fst snd]. split; intros port [].
  - destruct (seen_has seen (port_id p)) eqn:S.
    + destruct (IH seen) as [I H]. split; [exact I|].
      destruct (fst (scan_ports rest seen)).
      * destruct H as [port [Hin H]]. exists port. split; [now right | exact H].
      * destruct H as [A B]. split.
        -- intros port [<- | Hin]; [|now apply A].
           apply I. now apply seen_has_In.
        -- intros port [<- | Hin] M.
           ++ left. now apply seen_has_In.
           ++ destruct (B port Hin M) as [H | [o [Ho H]]]; [now left|].
              right. exists o. split; [now right | exact H].
    + cbv zeta. destruct (is_mtk p) eqn:M.
      * cbn [fst snd]. split; [apply incl_tl, incl_refl|].
        exists p. repeat split; auto. now left.
      * destruct (IH (port_id p :: seen)) as [I H].
        split; [intros x Hx; apply I; now right|].
        destruct (fst (scan_ports rest (port_id p :: seen))).
        -- destruct H as [port [Hin [D [Mp Sp]]]]. exists port.
           rewrite seen_has_cons in Sp. apply orb_false_iff in Sp.
           split; [now right|]. split; [exact D|]. split; [exact Mp | apply Sp].
        -- destruct H as [A B]. split.
           ++ intros port [<- | Hin]; [apply I; now left | now apply A].
           ++ intros port [<- | Hin] Mp; [congruence|].
              destruct (B port Hin Mp) as [[E | H] | [o [Ho H]]].
              ** right. exists p. repeat split; auto. now left.
              ** now left.
              ** right. exists o. split; [now right | exact H].
Qed.

(** X21.  One pass over a listing.  Ports seen before stay seen.  A pass
    that reports a device reports that of a listed port which matches and
    had not been seen.  A pass that reports nothing has marked every listed
    port as seen, and a listed port that matches was passed over only
    because its name and hardware id had been seen before, or belong as well
    to a listed port that does not match.  And a listing whose ports have all
    been seen reports nothing and changes nothing, whether they match or
    not. *)
Theorem scan_ports_reports_first_fresh_match
        (ports : list ListPortInfo) (seen : list (string * option string)) :
  incl seen (snd (scan_ports ports seen))
  /\ (forall dev, fst (scan_ports ports seen) = Some dev ->
      exists port, In port ports /\ device port = dev /\ is_mtk port = true
                   /\ seen_has seen (port_id port) = false)
  /\ (fst (scan_ports ports seen) = None ->
      (forall port, In port ports -> In (port_id port) (snd (scan_ports ports seen)))
      /\ (forall port, In port ports -> is_mtk port = true ->
                       In (port_id port) seen
                       \/ exists other, In other ports
                                        /\ port_id other = port_id port
                                        /\ is_mtk other = false))
  /\ ((forall port, In port ports -> seen_has seen (port_id port) = true) ->
      scan_ports ports seen = (None, seen)).
Proof.
  destruct (scan_ports_spec ports seen) as [I H].
  split; [exact I|]. split; [|split].
  - intros dev E. now rewrite E in H.
  - intros E. now rewrite E in H.
  - clear. induction ports as [|p rest IH]; intros A; [reflexivity|].
    cbn [scan_ports]. rewrite (A p (or_introl eq_refl)).
    apply IH. intros port Hin. apply A. now right.
Qed.

Lemma find_loop_sound (poll_interval : Interval) (fuel : nat) :
  forall seen (w : W) dev,
    fst (fst (find_loop poll_interval fuel seen w)) = Returned dev ->
    exists k port,
      k < fuel
      /\ In port (fst (host_comports (turn_world poll_interval k w)))
      /\ device port = dev /\ is_mtk port = true
      /\ snd (fst (find_loop poll_interval fuel seen w))
         = snd (host_comports (turn_world poll_interval k w))
      /\ snd (find_loop poll_interval fuel seen w) =
         (concat (repeat [Listed; Waited] k)
          ++ [Listed; Said ("MTK Preloader detected on " ++ dev)])%list.
Proof.
  induction fuel as [|fuel IH]; intros seen w dev H; [discriminate H|].
  cbn [find_loop] in *. destruct (host_comports w) as [ports w1] eqn:C.
  destruct (scan_ports_spec ports seen) as [_ Sc].
  destruct (scan_ports ports seen) as [[d|] seen'] eqn:E; cbn [fst snd] in *.
  - injection H as <-. destruct Sc as [port [Hin [D [M _]]]].
    exists 0, port. cbn [turn_world]. rewrite C. cbn [fst snd].
    repeat split; auto. lia.
  - destruct (find_loop poll_interval fuel seen' (host_sleep_for poll_interval w1))
      as [[r w2] t] eqn:L. cbn [fst snd] in *.
    destruct (IH seen' (host_sleep_for poll_interval w1) dev)
      as [k [port [Hk [Hin [D [M [Hw P]]]]]]].
    { now rewrite L. }
    rewrite L in Hw, P. cbn [fst snd] in Hw, P.
    exists (S k), port. cbn [turn_world]. rewrite C. cbn [fst snd].
    repeat split; auto; [lia|]. rewrite P. reflexivity.
Qed.

Lemma find_loop_waits (Inv : W -> Prop) (poll_interval : Interval) (fuel : nat) :
  (forall w, Inv w -> Inv (host_sleep_for poll_interval (snd (host_comports w)))) ->
  (forall w port, Inv w -> In port (fst (host_comports w)) -> is_mtk port = false) ->
  forall seen w,
    Inv w ->
    fst (fst (find_loop poll_interval fuel seen w)) = StillRunning
    /\ length (filter (fun e => match e with Listed => true | _ => false end)
                      (snd (find_loop poll_interval fuel seen w))) = fuel.
Proof.
  intros Pres Never. induction fuel as [|fuel IH]; intros seen w I; [split; reflexivity|].
  cbn [find_loop]. pose proof (Pres w I) as I1. pose proof (Never w) as N.
  destruct (host_comports w) as [ports w1]. cbn [fst snd] in *.
  destruct (scan_ports_spec ports seen) as [_ S].
  destruct (scan_ports ports seen) as [[d|] seen']; cbn [fst snd] in *.
  - destruct S as [port [Hin [_ [M _]]]]. rewrite (N port I Hin) in M. discriminate.
  - destruct (IH seen' _ I1) as [O L].
    destruct (find_loop poll_interval fuel seen' (host_sleep_for poll_interval w1))
      as [[r w2] t]. cbn [fst snd] in *. split; [exact O|].
    cbn [filter length]. now rewrite L.
Qed.

(** X22.  What [find_mtk_preloader] returns, and when it does not.  If it
    returns a device name, it does so on one of its turns, after some
    number k of turns without a match: a port with that name is in the listing
    read on that turn and matches the MediaTek rule, the world it leaves is
    the one after that listing, and its log is the opening line, k times a
    listing and a sleep, then the last listing and the line that names the
    device.  While no listed port matches ([Inv] holds at the start and is
    kept by a listing followed by a sleep), it never returns: after any
    number of turns it is still polling, one listing per turn. *)
Theorem find_mtk_preloader_returns_a_matching_port
        (Inv : W -> Prop) (poll_interval : Interval) (fuel : nat) (w : W) :
  (forall dev,
      fst (fst (find_mtk_preloader poll_interval fuel w)) = Returned dev ->
      exists k port,
        k < fuel
        /\ In port (fst (host_comports (turn_world poll_interval k w)))
        /\ device port = dev /\ is_mtk port = true
        /\ snd (fst (find_mtk_preloader poll_interval fuel w))
           = snd (host_comports (turn_world poll_interval k w))
        /\ snd (find_mtk_preloader poll_interval fuel w) =
           (Said "Waiting for MTK Preloader device..."
            :: concat (repeat [Listed; Waited] k)
            ++ [Listed; Said ("MTK Preloader detected on " ++ dev)])%list)
  /\ ((forall w', Inv w' -> Inv (host_sleep_for poll_interval (snd (host_comports w')))) ->
      (forall w' port, Inv w' -> In port (fst (host_comports w')) -> is_mtk port = false) ->
      Inv w ->
      fst (fst (find_mtk_preloader poll_interval fuel w)) = StillRunning
      /\ length (filter (fun e => match e with Listed => true | _ => false end)
                        (snd (find_mtk_preloader poll_interval fuel w))) = fuel).
Proof.
  unfold find_mtk_preloader. split.
  - intros dev H.
    destruct (find_loop poll_interval fuel [] w) as [[r w1] t] eqn:L. cbn [fst snd] in *.
    destruct (find_loop_sound poll_interval fuel [] w dev)
      as [k [port [Hk [Hin [D [M [Hw P]]]]]]].
    { now rewrite L. }
    rewrite L in Hw, P. cbn [fst snd] in Hw, P.
    exists k, port. repeat split; auto. now rewrite P.
  - intros Pres Never I.
    destruct (find_loop_waits Inv poll_interval fuel Pres Never [] w I) as [O L].
    destruct (find_loop poll_interval fuel [] w) as [[r w1] t]. cbn [fst snd] in *.
    split; [exact O | exact L].
Qed.

End MtkFacts.

(** X21 at a port that was seen as a modem and comes back with the MediaTek
    numbers under the same name and hardware id: it is not reported. *)
Lemma scan_ports_reports_first_fresh_match_witness :
  MtkComFinder.is_mtk MtkComFinder.modem_port_renumbered = true
  /\ MtkComFinder.scan_ports [MtkComFinder.modem_port_renumbered]
                             [MtkComFinder.port_id MtkComFinder.modem_port]
     = (None, [MtkComFinder.port_id MtkComFinder.modem_port]).
Proof.
  split; [reflexivity|].
  apply (proj2 (proj2 (proj2 (scan_ports_reports_first_fresh_match
                                [MtkComFinder.modem_port_renumbered]
                                [MtkComFinder.port_id MtkComFinder.modem_port])))).
  intros port [<- | []]. reflexivity.
Defined.

(** X22 at a machine whose preloader shows up at the third listing: the
    run returns its name, and a port of that name is in a listing the run
    read. *)
Lemma find_mtk_preloader_returns_a_matching_port_witness :
  fst (fst (@MtkComFinder.find_mtk_preloader
              nat unit (MtkComFinder.scripted_ports MtkComFinder.preloader_at_third) tt 5 0))
  = Returned "COM6"
  /\ exists k port,
      k < 5
      /\ In port (fst (@MtkComFinder.host_comports
                         nat unit (MtkComFinder.scripted_ports MtkComFinder.preloader_at_third)
                         (@MtkComFinder.turn_world
                            nat unit
                            (MtkComFinder.scripted_ports MtkComFinder.preloader_at_third)
                            tt k 0)))
      /\ MtkComFinder.device port = "COM6" /\ MtkComFinder.is_mtk port = true.
Proof.
  assert (H : fst (fst (@MtkComFinder.find_mtk_preloader
                          nat unit
                          (MtkComFinder.scripted_ports MtkComFinder.preloader_at_third)
                          tt 5 0)) = Returned "COM6") by reflexivity.
  split; [exact H|].
  destruct (proj1 (@find_mtk_preloader_returns_a_matching_port
                     nat unit (MtkComFinder.scripted_ports MtkComFinder.preloader_at_third)
                     (fun _ => True) tt 5 0) "COM6" H)
    as [k [port [Hk [Hin [D [M _]]]]]].
  exists k, port. repeat split; assumption.
Defined.
